(** * School fee portal: fee reconciliation and the payment-request lifecycle

    A shallow embedding of the file-backed core of the parent/admin fee
    portal:

    - [parent_database.py]       the CSV-ledger fee summary, the month
                                 resolver and the payment-request store;
    - [parent_portal.py]         the data-frame based fee details;
    - [real_payment_system.py]   the parent-payment ledger row and the
                                 verification history store;
    - [payment_notifications.py] the admin verify / reject workflow;
    - [parent_dashboard.py]      the pending-request listing.

    Conventions of the embedding.

    - A number of a file (a JSON number, a numeric CSV cell, a pandas
      cell) is the rational [Q] its decimal digits denote.  Where the
      code computes on Python floats (the running totals of the history
      statistics and of the fee summary, the percentages and their
      rounding) the model computes on binary64 doubles, Rocq's primitive
      [float], a rational entering as the double nearest to it.  The
      fee schedule, the balance and the column sums of the data frame
      are added as rationals: they are what the code computes wherever
      its own arithmetic is exact, as it is on whole amounts.
    - A JSON object used as a record is a Rocq record; a JSON object used
      as a look-up table is a [gmap]; the two request stores, whose
      iteration order is observable, are association lists in file order.
    - A file on disk is a [json_file] (missing, unparseable or parsed) or
      an [option] (missing or present).
    - The clock ([datetime.now()]) and the Streamlit session are inputs. *)

From Stdlib Require Import QArith Qround Qminmax Qabs Lqa Floats.
From stdpp Require Import base option list strings gmap sorting.

Local Open Scope string_scope.
Local Open Scope list_scope.

(** ** Files *)

Inductive json_file (A : Type) : Type :=
| Missing
| Unparseable
| Parsed (content : A).
Arguments Missing {A}.
Arguments Unparseable {A}.
Arguments Parsed {A} content.

(** An insertion-ordered dictionary from student ids to lists, as
    [json.load] returns it and [.items()] walks it. *)
Abbreviation ordered_dict A := (list (string * list A)) (only parsing).

(** [if student_id not in payments: payments[student_id] = []] *)
Definition dict_setdefault_nil {A} (student_id : string) (payments : ordered_dict A)
  : ordered_dict A :=
  if decide (student_id ∈ payments.*1) then payments
  else payments ++ [(student_id, [])].

(** [payments[student_id].append(payment_data)] *)
Definition dict_append {A} (student_id : string) (payment_data : A)
    (payments : ordered_dict A) : ordered_dict A :=
  (λ entry : string * list A, if decide (entry.1 = student_id)
            then (entry.1, entry.2 ++ [payment_data]) else entry) <$> payments.

(** ** Numbers *)

(** [x > 0] on a number. *)
Definition Qpositive (x : Q) : bool := (0 <? Qnum x)%Z.

(** Python's [max(a, b)]: the first argument unless the second is greater. *)
Definition py_max (a b : Q) : Q :=
  match (a ?= b)%Q with
  | Lt => b
  | _ => a
  end.

(** Nearest integer, ties to the even neighbour. *)
Definition round_half_even (x : Q) : Z :=
  let lo := Qfloor x in
  match (x - inject_Z lo ?= 1 # 2)%Q with
  | Lt => lo
  | Gt => (lo + 1)%Z
  | Eq => if Z.even lo then lo else (lo + 1)%Z
  end.

(** The multiple of [10^-ndigits] nearest to a rational, ties to the
    even multiple. *)
Definition decimal_round (x : Q) (ndigits : nat) : Q :=
  let scale := inject_Z (10 ^ Z.of_nat ndigits) in
  (inject_Z (round_half_even (x * scale)) / scale)%Q.

(** ** Binary64

    A quotient, a product and a rounding of Python run on binary64
    doubles, Rocq's primitive [float].  An amount that arrives as a
    rational (a decimal literal of a JSON or CSV file, or a whole
    number) enters such an expression as the double nearest to it. *)

(** The double nearest to [m * 2^e], ties to the even mantissa. *)
Definition Z2F (m e : Z) : float := SF2Prim (binary_normalize prec emax m e false).

(** The double nearest to a rational, ties to even: [float("0.1")], and
    the conversion of a whole number.  The quotient is cut after at
    least 65 bits, with one more bit that records whether anything was
    cut off. *)
Definition Q2F (q : Q) : float :=
  let n := Qnum q in
  let d := Zpos (Qden q) in
  let shift := Z.max 0 (Z.log2 d - Z.log2 (Z.abs n) + 66) in
  let scaled := (Z.abs n * 2 ^ shift)%Z in
  let quotient := (scaled / d)%Z in
  let sticky := if (scaled mod d =? 0)%Z then 0%Z else 1%Z in
  Z2F (Z.sgn n * (2 * quotient + sticky)) (- shift - 1).

(** The exact value of a finite double, in lowest terms; [None] for an
    infinity and for not-a-number. *)
Definition F2Q (x : float) : option Q :=
  match Prim2SF x with
  | S754_zero _ => Some 0%Q
  | S754_finite s m e =>
    let magnitude :=
      match e with
      | Zneg k => Zpos m # (2 ^ k)
      | _ => inject_Z (Zpos m * 2 ^ e)
      end in
    Some (Qred (if s then - magnitude else magnitude))
  | _ => None
  end.

(** [round(x, ndigits)] of a Python float: the exact value of [x] is
    rounded to [ndigits] decimals, ties to even, and the double nearest
    to that decimal is returned, with the sign of [x]; zeros, infinities
    and not-a-number are returned as they are. *)
Definition py_round (x : float) (ndigits : nat) : float :=
  match F2Q (PrimFloat.abs x) with
  | Some magnitude =>
    if (x =? 0)%float then x
    else
      let rounded := Q2F (decimal_round magnitude ndigits) in
      if (x <? 0)%float then (- rounded)%float else rounded
  | None => x
  end.

(** [numpy.rint]: the nearest whole number, ties to even, as a double. *)
Definition rint (x : float) : float :=
  match F2Q (PrimFloat.abs x) with
  | Some magnitude =>
    let rounded := Z2F (round_half_even magnitude) 0 in
    if PrimFloat.get_sign x then (- rounded)%float else rounded
  | None => x
  end.

(** [round(x, ndigits)] of a [numpy.float64], which is what the data
    frame's [.sum()] returns and what an expression with it evaluates
    to: numpy scales by the power of ten, rounds to a whole number and
    scales back, each step in binary64. *)
Definition np_round (x : float) (ndigits : nat) : float :=
  let factor := Z2F (10 ^ Z.of_nat ndigits) 0 in
  (rint (x * factor) / factor)%float.

(** ** Sorting *)

(** One step of a stable descending insertion: [x], which precedes every
    element of [l] in the input, goes before the first element whose key
    is not greater than its own.  Keys are compared as Python compares
    strings, code point by code point (byte by byte in UTF-8). *)
Fixpoint insert_desc {A} (key : A → string) (x : A) (l : list A) : list A :=
  match l with
  | [] => [x]
  | y :: l' =>
    if String.ltb (key x) (key y) then y :: insert_desc key x l' else x :: l
  end.

(** [sorted(l, key=key, reverse=True)] and [l.sort(key=key, reverse=True)]:
    descending by key, records with equal keys in their original order. *)
Definition sorted_desc {A} (key : A → string) (l : list A) : list A :=
  foldr (insert_desc key) [] l.

(** Descending order of keys: the key of [y] is at most the key of [x]. *)
Definition descending {A} (key : A → string) (x y : A) : Prop :=
  String.leb (key y) (key x) = true.

(** ** The transaction ledger, [fees_data.csv] *)

Module Ledger.

(** One ledger row, restricted to the columns the core reads.  A numeric
    cell is [None] when it holds no number: [float(...)] raises on it in
    the CSV reader, and it is a NaN in the data frame. *)
Record fee_row : Type := {
  ID : string;
  Month : string;
  Monthly_Fee : option Q;
  Annual_Charges : option Q;
  Admission_Fee : option Q;
  Received_Amount : option Q;
  Payment_Method : string;
  Date : string
}.

End Ledger.

(** ** [real_payment_system.py] *)

Module RealPaymentSystem.
Import Ledger.

(** A record of [parent_payments_history.json].  The stamps are absent
    until a verify or reject call writes them. *)
Record payment : Type := {
  student_id : string;
  student_name : string;
  amount : Q;
  payment_method : string;
  transaction_id : option string;
  payment_date : string;
  status : string;
  verified_at : option string;
  verified_by : option string;
  rejected_at : option string;
  rejected_by : option string;
  rejection_reason : option string
}.

(** The ledger row [handle_parent_payment] builds for [save_to_csv]. *)
Definition payment_record (student_id : string) (amount : Q)
    (payment_method today : string) : fee_row :=
  {| ID := student_id;
     Month := "PARENT_PAYMENT";
     Monthly_Fee := Some amount;
     Annual_Charges := Some 0%Q;
     Admission_Fee := Some 0%Q;
     Received_Amount := Some amount;
     Payment_Method := payment_method;
     Date := today |}.

(** [_save_parent_payment_record]: the new record of the history store. *)
Definition new_payment_data (student_id student_name : string) (amount : Q)
    (payment_method : string) (transaction_id : string) (now : string) : payment :=
  {| student_id := student_id;
     student_name := student_name;
     amount := amount;
     payment_method := payment_method;
     transaction_id := Some transaction_id;
     payment_date := now;
     status := "pending_verification";
     verified_at := None; verified_by := None;
     rejected_at := None; rejected_by := None; rejection_reason := None |}.

Definition _save_parent_payment_record (now : string)
    (file : json_file (ordered_dict payment))
    (student_id student_name : string) (amount : Q)
    (payment_method transaction_id : string)
  : bool * json_file (ordered_dict payment) :=
  match file with
  | Unparseable => (false, Unparseable)
  | _ =>
    let payments := match file with Parsed payments => payments | _ => [] end in
    let payments := dict_setdefault_nil student_id payments in
    let payment_data :=
      new_payment_data student_id student_name amount payment_method transaction_id now in
    (true, Parsed (dict_append student_id payment_data payments))
  end.

(** [handle_parent_payment], as far as the history store goes.  [saved]
    is the answer of [save_to_csv([payment_record])] of the [database]
    module ([false] also when the [try] block raises before it): the
    tracking record is written only after the ledger row was saved, and
    the answer of [_save_parent_payment_record] is dropped. *)
Definition handle_parent_payment (saved : bool) (now : string)
    (file : json_file (ordered_dict payment))
    (student_id student_name : string) (amount : Q)
    (payment_method transaction_id : string)
  : bool * json_file (ordered_dict payment) :=
  if saved then
    (true, (_save_parent_payment_record now file student_id student_name amount
              payment_method transaction_id).2)
  else (false, file).

End RealPaymentSystem.

(** ** [payment_notifications.py] *)

Module PaymentNotifications.
Export RealPaymentSystem.

Abbreviation store := (ordered_dict payment) (only parsing).

(** The three assignments of the verify loop body. *)
Definition mark_verified (now user : string) (p : payment) : payment :=
  {| student_id := student_id p;
     student_name := student_name p;
     amount := amount p;
     payment_method := payment_method p;
     transaction_id := transaction_id p;
     payment_date := payment_date p;
     status := "verified";
     verified_at := Some now;
     verified_by := Some user;
     rejected_at := rejected_at p;
     rejected_by := rejected_by p;
     rejection_reason := rejection_reason p |}.

(** The four assignments of the reject loop body. *)
Definition mark_rejected (now user : string) (p : payment) : payment :=
  {| student_id := student_id p;
     student_name := student_name p;
     amount := amount p;
     payment_method := payment_method p;
     transaction_id := transaction_id p;
     payment_date := payment_date p;
     status := "rejected";
     verified_at := verified_at p;
     verified_by := verified_by p;
     rejected_at := Some now;
     rejected_by := Some user;
     rejection_reason := Some "Manual rejection by admin" |}.

(** The inner loop of [verify_parent_payment]: the first index [i] whose
    record carries the transaction id is updated, then [break]. *)
Definition verify_student_payments (tid : option string) (now user : string)
    (student_payments : list payment) : list payment :=
  match list_find (λ payment, transaction_id payment = tid) student_payments with
  | Some (i, _) => alter (mark_verified now user) i student_payments
  | None => student_payments
  end.

(** The outer loop: [break] leaves the inner loop only, so every
    student's list is scanned. *)
Definition verify_payments (tid : option string) (now user : string)
    (payments : store) : store :=
  (λ entry : string * list payment,
     (entry.1, verify_student_payments tid now user entry.2)) <$> payments.

Definition verify_parent_payment (now : string) (current_user : option string)
    (file : json_file store) (payment_data : payment) : bool * json_file store :=
  match file with
  | Missing => (false, Missing)
  | Unparseable => (false, Unparseable)
  | Parsed payments =>
    (true, Parsed (verify_payments (transaction_id payment_data) now
                     (default "Admin" current_user) payments))
  end.

Definition reject_student_payments (tid : option string) (now user : string)
    (student_payments : list payment) : list payment :=
  match list_find (λ payment, transaction_id payment = tid) student_payments with
  | Some (i, _) => alter (mark_rejected now user) i student_payments
  | None => student_payments
  end.

Definition reject_payments (tid : option string) (now user : string)
    (payments : store) : store :=
  (λ entry : string * list payment,
     (entry.1, reject_student_payments tid now user entry.2)) <$> payments.

Definition reject_parent_payment (now : string) (current_user : option string)
    (file : json_file store) (payment_data : payment) : bool * json_file store :=
  match file with
  | Missing => (false, Missing)
  | Unparseable => (false, Unparseable)
  | Parsed payments =>
    (true, Parsed (reject_payments (transaction_id payment_data) now
                     (default "Admin" current_user) payments))
  end.

(** An admin action, with the clock reading and session user it runs under. *)
Inductive admin_op : Type :=
| Verify (now : string) (current_user : option string) (payment_data : payment)
| Reject (now : string) (current_user : option string) (payment_data : payment).

Definition op_transaction_id (op : admin_op) : option string :=
  match op with
  | Verify _ _ payment_data | Reject _ _ payment_data => transaction_id payment_data
  end.

Definition run_op (op : admin_op) (file : json_file store) : bool * json_file store :=
  match op with
  | Verify now current_user payment_data =>
    verify_parent_payment now current_user file payment_data
  | Reject now current_user payment_data =>
    reject_parent_payment now current_user file payment_data
  end.

(** A session of admin actions, each reading the file the previous wrote. *)
Definition run_ops (ops : list admin_op) (file : json_file store) : json_file store :=
  foldl (λ file op, (run_op op file).2) file ops.

(** The status column of a store, in store order. *)
Definition statuses (payments : store) : list (list string) :=
  (λ entry : string * list payment, status <$> entry.2) <$> payments.

Definition file_statuses (file : json_file store) : list (list string) :=
  match file with
  | Parsed payments => statuses payments
  | _ => []
  end.

(** The terminal states of the lifecycle. *)
Definition is_terminal (s : string) : Prop := s = "verified" ∨ s = "rejected".

(** No record of the store carries the transaction id. *)
Definition no_match (tid : option string) (payments : store) : Prop :=
  Forall (λ entry : string * list payment,
            Forall (λ p, transaction_id p ≠ tid) entry.2) payments.

(** The records of all students, in the order the nested loops visit
    them. *)
Definition all_payments (payments : store) : list payment := mjoin payments.*2.

Definition get_pending_parent_payments (file : json_file store) : list payment :=
  match file with
  | Parsed payments =>
    sorted_desc payment_date
      (filter (λ payment, status payment = "pending_verification")
         (all_payments payments))
  | _ => []
  end.

Record payment_stats : Type := {
  total_pending : nat;
  total_verified : nat;
  total_rejected : nat;
  pending_amount : float;
  verified_amount : float
}.

Definition no_stats : payment_stats :=
  {| total_pending := 0; total_verified := 0; total_rejected := 0;
     pending_amount := 0; verified_amount := 0 |}.

(** The body of the statistics loop.  The amounts are added in
    binary64, in store order; a record's amount is the double
    [json.load] reads. *)
Definition count_payment (stats : payment_stats) (payment : payment) : payment_stats :=
  if decide (status payment = "pending_verification") then
    {| total_pending := S (total_pending stats);
       total_verified := total_verified stats;
       total_rejected := total_rejected stats;
       pending_amount := (pending_amount stats + Q2F (amount payment))%float;
       verified_amount := verified_amount stats |}
  else if decide (status payment = "verified") then
    {| total_pending := total_pending stats;
       total_verified := S (total_verified stats);
       total_rejected := total_rejected stats;
       pending_amount := pending_amount stats;
       verified_amount := (verified_amount stats + Q2F (amount payment))%float |}
  else if decide (status payment = "rejected") then
    {| total_pending := total_pending stats;
       total_verified := total_verified stats;
       total_rejected := S (total_rejected stats);
       pending_amount := pending_amount stats;
       verified_amount := verified_amount stats |}
  else stats.

Definition get_payment_stats (file : json_file store) : payment_stats :=
  match file with
  | Parsed payments => foldl count_payment no_stats (all_payments payments)
  | _ => no_stats
  end.

(** The statuses the workflow writes. *)
Definition known_status (s : string) : Prop :=
  s = "pending_verification" ∨ s = "verified" ∨ s = "rejected".

(** A parent submission or an admin action on the history store. *)
Inductive workflow_op : Type :=
| Submit (saved : bool) (now student_id student_name : string) (amount : Q)
    (payment_method transaction_id : string)
| Admin (op : admin_op).

Definition run_workflow_op (op : workflow_op) (file : json_file store)
  : bool * json_file store :=
  match op with
  | Submit saved now student_id student_name amount payment_method transaction_id =>
    handle_parent_payment saved now file student_id student_name amount
      payment_method transaction_id
  | Admin op => run_op op file
  end.

Definition run_workflow (ops : list workflow_op) (file : json_file store)
  : json_file store :=
  foldl (λ file op, (run_workflow_op op file).2) file ops.

(** The submissions of a session whose ledger row was saved. *)
Definition is_saved_submission (op : workflow_op) : bool :=
  match op with
  | Submit saved _ _ _ _ _ _ => saved
  | Admin _ => false
  end.

Definition saved_submissions (ops : list workflow_op) : nat :=
  length (filter (λ op : workflow_op, is_saved_submission op = true) ops).

(** The records of a file; none when it is missing or unparseable. *)
Definition file_payments (file : json_file store) : list payment :=
  match file with
  | Parsed payments => all_payments payments
  | _ => []
  end.

(** The student entries of a file, and their keys; none when the file is
    missing or unparseable. *)
Definition file_entries (file : json_file store) : store :=
  match file with
  | Parsed payments => payments
  | _ => []
  end.

Definition file_keys (file : json_file store) : list string := (file_entries file).*1.

End PaymentNotifications.

(** ** [parent_database.py] *)

Module ParentDatabase.
Import Ledger.

(** The request [record_payment_request] writes. *)
Record payment_data : Type := {
  request_id : string;
  parent_email : string;
  amount : Q;
  payment_type : string;
  payment_method : string;
  status : string;
  requested_at : string;
  selected_months : list string
}.

(** The request the payment form of [parent_portal.py] writes into the
    same file, [data/parent_payments.json]. *)
Record form_payment_data : Type := {
  form_student_id : string;
  form_student_name : string;
  form_amount : Q;
  form_payment_method : string;
  form_transaction_id : string;
  form_parent_name : string;
  form_payment_date : string;
  form_description : string;
  form_selected_months : list string;
  form_status : string;
  form_created_at : string
}.

(** A stored request: every writer of the file sets ["status"]. *)
Inductive request : Type :=
| Requested (r : payment_data)
| Submitted (r : form_payment_data).

(** [req['status']] *)
Definition request_status (req : request) : string :=
  match req with
  | Requested r => status r
  | Submitted r => form_status r
  end.

Abbreviation requests_file := (json_file (gmap string (list request))) (only parsing).

(** [ensure_databases_exist]: a missing request file is created as [{}]. *)
Definition ensure_databases_exist (file : requests_file) : requests_file :=
  match file with
  | Missing => Parsed ∅
  | _ => file
  end.

(** [try: payments = json.load(f) except: payments = {}] *)
Definition load_payments (file : requests_file) : gmap string (list request) :=
  match file with
  | Parsed payments => payments
  | _ => ∅
  end.

(** [stamp] and [now] are the two clock readings, formatted
    [%Y%m%d%H%M%S] and [%Y-%m-%d %H:%M:%S]. *)
Definition record_payment_request (stamp now : string) (file : requests_file)
    (student_id parent_email : string) (amount : Q)
    (payment_type payment_method : string) (selected_months : option (list string))
  : string * requests_file :=
  let file := ensure_databases_exist file in
  let payments := load_payments file in
  let request_id := "PR_" +:+ stamp in
  let payments :=
    if decide (is_Some (payments !! student_id)) then payments
    else <[student_id := []]> payments in
  let payment_data :=
    {| request_id := request_id;
       parent_email := parent_email;
       amount := amount;
       payment_type := payment_type;
       payment_method := payment_method;
       status := "pending";
       requested_at := now;
       selected_months := default [] selected_months |} in
  let payments := alter (λ requests, requests ++ [Requested payment_data])
                    student_id payments in
  (request_id, Parsed payments).

(** [payments.get(student_id, [])] *)
Definition get_payment_requests (file : requests_file) (student_id : string)
  : list request :=
  default [] (load_payments (ensure_databases_exist file) !! student_id).

(** [students.get(student_id, None)], [None] also when the file is missing. *)
Definition get_student_details (STUDENT_DETAILS : option (gmap string (gmap string string)))
    (student_id : string) : option (gmap string string) :=
  match STUDENT_DETAILS with
  | None => None
  | Some students => students !! student_id
  end.

Definition get_student_fees (STUDENT_FEES : option (gmap string (gmap string Q)))
    (student_id : string) : option (gmap string Q) :=
  match STUDENT_FEES with
  | None => None
  | Some fees => fees !! student_id
  end.

(** Truth value of [not d] for an optional dictionary: [None] and [{}]. *)
Definition falsy {V} (d : option (gmap string V)) : bool :=
  match d with
  | None => true
  | Some d => bool_decide (size d = 0%nat)
  end.

Record fee_summary : Type := {
  summary_student_id : string;
  summary_student_name : string;
  summary_class : string;
  monthly_fee : Q;
  admission_fee : Q;
  annual_fee : Q;
  total_yearly_due : Q;
  total_received : Q;
  balance_due : Q;
  percentage_paid : float
}.

(** The [received] loop over the CSV rows: a running binary64 total of
    [float(...)] of the student's cells, in row order; a cell [float]
    rejects is skipped by the [try]/[except]. *)
Definition received_total (student_id : string) (rows : list fee_row) : float :=
  foldl (λ received row,
           if decide (ID row = student_id) then
             match Received_Amount row with
             | Some x => (received + Q2F x)%float
             | None => received
             end
           else received) 0%float rows.

(** [received], as the number the summary holds: the exact value of the
    running total (amounts are taken to be far from the overflow of
    binary64). *)
Definition received_amount (student_id : string) (FEES_DATA : option (list fee_row)) : Q :=
  match FEES_DATA with
  | None => 0%Q
  | Some rows => default 0%Q (F2Q (received_total student_id rows))
  end.

Definition get_student_fee_summary
    (STUDENT_DETAILS : option (gmap string (gmap string string)))
    (STUDENT_FEES : option (gmap string (gmap string Q)))
    (FEES_DATA : option (list fee_row))
    (student_id : string) : option fee_summary :=
  let student := get_student_details STUDENT_DETAILS student_id in
  let fees := get_student_fees STUDENT_FEES student_id in
  if falsy student || falsy fees then None else
  let student := default ∅ student in
  let fees := default ∅ fees in
  let monthly_fee := default 0%Q (fees !! "monthly_fee") in
  let admission_fee := default 0%Q (fees !! "admission_fee") in
  let annual_fee := default 0%Q (fees !! "annual_fee") in
  let received := received_amount student_id FEES_DATA in
  let total_due := (monthly_fee * 12 + admission_fee + annual_fee)%Q in
  let balance := (total_due - received)%Q in
  Some {| summary_student_id := student_id;
          summary_student_name := default "N/A" (student !! "name");
          summary_class := default "N/A" (student !! "class");
          monthly_fee := monthly_fee;
          admission_fee := admission_fee;
          annual_fee := annual_fee;
          total_yearly_due := total_due;
          total_received := received;
          balance_due := py_max 0 balance;
          percentage_paid :=
            py_round (if Qpositive total_due
                      then Q2F received / Q2F total_due * 100 else 0)%float 2 |}.

Record paid_month : Type := {
  month : string;
  paid_amount : Q;
  date : string;
  method : string
}.

(** The loop of [get_paid_months] over the rows.  [float] of the
    ["Monthly Fee"] cell is outside any [try]: on a row of the student
    whose cell holds no number the call raises ([None]). *)
Fixpoint paid_months_of_rows (student_id : string) (rows : list fee_row)
  : option (list paid_month) :=
  match rows with
  | [] => Some []
  | row :: rows =>
    if decide (ID row = student_id) then
      match Monthly_Fee row with
      | None => None
      | Some fee =>
        rest ← paid_months_of_rows student_id rows;
        Some (if Qpositive fee
              then {| month := Month row; paid_amount := fee;
                      date := Date row; method := Payment_Method row |} :: rest
              else rest)
      end
    else paid_months_of_rows student_id rows
  end.

Definition get_paid_months (FEES_DATA : option (list fee_row)) (student_id : string)
  : option (list paid_month) :=
  match FEES_DATA with
  | None => Some []
  | Some rows => paid_months_of_rows student_id rows
  end.

Definition all_months : list string :=
  ["JANUARY"; "FEBRUARY"; "MARCH"; "APRIL"; "MAY"; "JUNE";
   "JULY"; "AUGUST"; "SEPTEMBER"; "OCTOBER"; "NOVEMBER"; "DECEMBER"].

Definition get_unpaid_months (FEES_DATA : option (list fee_row)) (student_id : string)
  : option (list string) :=
  match get_paid_months FEES_DATA student_id with
  | None => None
  | Some paid_months_data =>
    let paid_months := month <$> paid_months_data in
    Some (filter (λ month, month ∉ paid_months) all_months)
  end.

(** A ledger row as [get_payment_history] reads it through
    [csv.DictReader].  A text cell is [None] when the row is too short
    to reach its column (the reader fills in [None]); where the file has
    no such column at all, the cell holds the default of the [.get].
    [Received_Amount_float] is [float(...)] of the cell, [None] when
    that raises. *)
Record history_row : Type := {
  history_ID : option string;
  Received_Amount_float : option float;
  history_Date : option string;
  history_Payment_Method : option string;
  Reference_No : option string;
  Remarks : option string
}.

Record history_entry : Type := {
  history_date : option string;
  history_amount : float;
  history_payment_method : option string;
  reference : option string;
  remarks : option string
}.

Definition history_entry_of (row : history_row) (amount : float) : history_entry :=
  {| history_date := history_Date row;
     history_amount := amount;
     history_payment_method := history_Payment_Method row;
     reference := Reference_No row;
     remarks := Remarks row |}.

(** The loop of [get_payment_history]: a row of the student whose
    ["Received Amount"] is no number is skipped by the [try]/[except],
    and one whose amount is not above zero is left out. *)
Definition history_of_rows (student_id : string) (rows : list history_row)
  : list history_entry :=
  foldl (λ history row,
           if decide (history_ID row = Some student_id) then
             match Received_Amount_float row with
             | Some amount =>
               if (0 <? amount)%float then history ++ [history_entry_of row amount]
               else history
             | None => history
             end
           else history) [] rows.

(** [sorted(history, key=lambda x: x['date'], reverse=True)].  A list
    of fewer than two entries is returned without a comparison.  In a
    longer list every key is compared with another one, and a
    comparison with [None] raises a [TypeError] ([None] here). *)
Definition sorted_by_date (history : list history_entry)
  : option (list history_entry) :=
  if decide (length history < 2)%nat then Some history
  else if decide (Forall (λ entry, is_Some (history_date entry)) history)
       then Some (sorted_desc (λ entry, default "" (history_date entry)) history)
       else None.

(** [get_payment_history]: the entries, newest date first, or [None]
    when the sort raises (it stands outside every [try]), and the
    request file [ensure_databases_exist] leaves behind. *)
Definition get_payment_history (FEES_DATA : option (list history_row))
    (file : requests_file) (student_id : string)
  : option (list history_entry) * requests_file :=
  let file := ensure_databases_exist file in
  let history := match FEES_DATA with
                 | None => []
                 | Some rows => history_of_rows student_id rows
                 end in
  (sorted_by_date history, file).

End ParentDatabase.

(** ** [parent_dashboard.py] *)

Module ParentDashboard.
Import ParentDatabase.

(** The list [show_pending_requests] renders. *)
Definition pending_requests (file : requests_file) (student_id : string) : list request :=
  let requests := get_payment_requests file student_id in
  filter (λ req, request_status req = "pending") requests.

End ParentDashboard.

(** ** [parent_portal.py] *)

Module ParentPortal.
Import Ledger.

(** The three fee getters share one shape.  [student_fees] and
    [default_fees] are what [load_student_fees()] and
    [load_default_fees()] of the [database] module return, [None] when
    the loader raises; the [except] branch returns the same literal as
    the [.get] defaults. *)
Definition student_fee_or_default (key default_key : string) (literal : Q)
    (student_fees : option (gmap string (gmap string Q)))
    (default_fees : option (gmap string Q)) (student_id : string) : Q :=
  match student_fees with
  | None => literal
  | Some student_fees =>
    match student_fees !! student_id with
    | Some fees => default literal (fees !! key)
    | None =>
      match default_fees with
      | None => literal
      | Some default_fees => default literal (default_fees !! default_key)
      end
    end
  end.

Definition get_student_monthly_fee :=
  student_fee_or_default "monthly_fee" "monthly_fee" 3000%Q.

Definition get_student_annual_fee :=
  student_fee_or_default "annual_fee" "annual_charges" 3500%Q.

Definition get_student_admission_fee :=
  student_fee_or_default "admission_fee" "admission_fee" 10000%Q.

Definition all_months : list string :=
  ["APRIL"; "MAY"; "JUNE"; "JULY"; "AUGUST"; "SEPTEMBER";
   "OCTOBER"; "NOVEMBER"; "DECEMBER"; "JANUARY"; "FEBRUARY"; "MARCH"].

(** [column > 0] on a data-frame cell; false on a NaN. *)
Definition cell_positive (cell : option Q) : bool :=
  match cell with
  | Some x => Qpositive x
  | None => false
  end.

(** [column.sum()], which skips NaN cells. *)
Definition column_sum (column : fee_row → option Q) (rows : list fee_row) : Q :=
  foldl (λ total row, match column row with
                      | Some x => (total + x)%Q
                      | None => total
                      end) 0%Q rows.

Record paid_month : Type := {
  month : string;
  paid_amount : Q;
  date : string
}.

(** [student_records[(Month == month) & (Monthly Fee > 0)]] *)
Definition month_records (student_records : list fee_row) (month : string)
  : list fee_row :=
  filter (λ row, Month row = month ∧ cell_positive (Monthly_Fee row)) student_records.

(** The loop over [all_months] that fills [paid_months] and
    [unpaid_months]. *)
Definition resolve_months (student_records : list fee_row) (months : list string)
  : list paid_month * list string :=
  foldl (λ acc month,
           match month_records student_records month with
           | first :: _ =>
             (acc.1 ++ [{| month := month;
                           paid_amount := default 0%Q (Monthly_Fee first);
                           date := Date first |}], acc.2)
           | [] => (acc.1, acc.2 ++ [month])
           end) ([], []) months.

Record fee_details : Type := {
  student_id : string;
  student_name : string;
  father_name : string;
  class : string;
  phone : string;
  monthly_fee : Q;
  annual_fee : Q;
  admission_fee : Q;
  total_monthly : Q;
  total_annual : Q;
  total_admission : Q;
  total_received : Q;
  total_due : Q;
  balance_due : Q;
  percentage_paid : float;
  paid_months : list paid_month;
  unpaid_months : list string;
  total_paid_months : nat;
  total_unpaid_months : nat;
  annual_paid : bool;
  admission_paid : bool
}.

(** [df] is the data frame [load_data()] returns and [student_details]
    the dictionary [load_student_details()] returns. *)
Definition get_student_fee_details (df : list fee_row)
    (student_details : gmap string (gmap string string))
    (student_fees : option (gmap string (gmap string Q)))
    (default_fees : option (gmap string Q))
    (student_id : string) : option fee_details :=
  match student_details !! student_id with
  | None => None
  | Some student_info =>
    let student_records := filter (λ row, ID row = student_id) df in
    let monthly_fee_amount := get_student_monthly_fee student_fees default_fees student_id in
    let annual_fee_amount := get_student_annual_fee student_fees default_fees student_id in
    let admission_fee_amount :=
      get_student_admission_fee student_fees default_fees student_id in
    let months := resolve_months student_records all_months in
    let paid_months := months.1 in
    let unpaid_months := months.2 in
    let annual_paid :=
      existsb (λ row, cell_positive (Annual_Charges row)) student_records in
    let admission_paid :=
      existsb (λ row, cell_positive (Admission_Fee row)) student_records in
    let total_monthly := column_sum Monthly_Fee student_records in
    let total_annual := column_sum Annual_Charges student_records in
    let total_admission := column_sum Admission_Fee student_records in
    let total_received := column_sum Received_Amount student_records in
    let total_monthly_due := (monthly_fee_amount * 12)%Q in
    let total_annual_due := if negb annual_paid then annual_fee_amount else 0%Q in
    let total_admission_due := if negb admission_paid then admission_fee_amount else 0%Q in
    let total_due := (total_monthly_due + total_annual_due + total_admission_due)%Q in
    let balance_due := py_max 0 (total_due - total_received) in
    Some {| student_id := student_id;
            student_name := default "N/A" (student_info !! "student_name");
            father_name := default "N/A" (student_info !! "father_name");
            class := default "N/A" (student_info !! "class_category");
            phone := default "N/A" (student_info !! "phone");
            monthly_fee := monthly_fee_amount;
            annual_fee := annual_fee_amount;
            admission_fee := admission_fee_amount;
            total_monthly := total_monthly;
            total_annual := total_annual;
            total_admission := total_admission;
            total_received := total_received;
            total_due := total_due;
            balance_due := balance_due;
            percentage_paid :=
              np_round (if Qpositive total_due
                        then Q2F total_received / Q2F total_due * 100
                        else 0)%float 1;
            paid_months := paid_months;
            unpaid_months := unpaid_months;
            total_paid_months := length paid_months;
            total_unpaid_months := length unpaid_months;
            annual_paid := annual_paid;
            admission_paid := admission_paid |}
  end.

End ParentPortal.

(** ** Sample data *)

Module Scenario.
Import PaymentNotifications.

(** A parent payment of student S1 awaiting verification. *)
Definition txn1_pending : payment :=
  new_payment_data "S1" "Asha" 3000 "JazzCash" "TXN1" "2024-05-01 10:00:00".

(** A second submission with the same transaction id, for student S2. *)
Definition txn1_of_s2 : payment :=
  new_payment_data "S2" "Bilal" 3000 "EasyPaisa" "TXN1" "2024-05-01 11:00:00".

(** A request with another transaction id. *)
Definition txn2_pending : payment :=
  new_payment_data "S1" "Asha" 3500 "Bank Transfer" "TXN2" "2024-05-04 08:30:00".

Definition txn1_verified : payment :=
  mark_verified "2024-05-02 09:00:00" "Admin" txn1_pending.

Definition txn1_rejected : payment :=
  mark_rejected "2024-05-02 09:00:00" "Admin" txn1_pending.

(** The history store after two parents submitted TXN1, for S1 and S2. *)
Definition history_two_students : json_file store :=
  let first :=
    _save_parent_payment_record "2024-05-01 10:00:00" Missing
      "S1" "Asha" 3000 "JazzCash" "TXN1" in
  (_save_parent_payment_record "2024-05-01 11:00:00" first.2
     "S2" "Bilal" 3000 "EasyPaisa" "TXN1").2.

(** Student S1: monthly fee 3000, annual fee 3500, admission fee 10000,
    APRIL and MAY paid. *)
Definition monthly_row (month today : string) : Ledger.fee_row :=
  {| Ledger.ID := "S1";
     Ledger.Month := month;
     Ledger.Monthly_Fee := Some 3000%Q;
     Ledger.Annual_Charges := Some 0%Q;
     Ledger.Admission_Fee := Some 0%Q;
     Ledger.Received_Amount := Some 3000%Q;
     Ledger.Payment_Method := "Cash";
     Ledger.Date := today |}.

Definition ledger : list Ledger.fee_row :=
  [monthly_row "APRIL" "2024-04-05"; monthly_row "MAY" "2024-05-06"].

(** A row that records the annual charges of S1. *)
Definition annual_row : Ledger.fee_row :=
  {| Ledger.ID := "S1";
     Ledger.Month := "APRIL";
     Ledger.Monthly_Fee := Some 0%Q;
     Ledger.Annual_Charges := Some 3500%Q;
     Ledger.Admission_Fee := Some 0%Q;
     Ledger.Received_Amount := Some 3500%Q;
     Ledger.Payment_Method := "Cash";
     Ledger.Date := "2024-04-05" |}.

(** The ledger after a parent-portal payment of S1 was recorded. *)
Definition ledger_with_parent_payment : list Ledger.fee_row :=
  ledger ++ [payment_record "S1" 3000 "JazzCash" "2024-06-02"].


Definition fee_schedule : gmap string Q :=
  {[ "monthly_fee" := 3000%Q; "annual_fee" := 3500%Q; "admission_fee" := 10000%Q ]}.

Definition STUDENT_FEES : gmap string (gmap string Q) := {[ "S1" := fee_schedule ]}.

(** [data/student_details.json], as [parent_database.py] reads it. *)
Definition STUDENT_DETAILS : gmap string (gmap string string) :=
  {[ "S1" := {[ "name" := "Asha"; "class" := "Five" ]} ]}.

(** [load_student_details()], as [parent_portal.py] reads it. *)
Definition student_details : gmap string (gmap string string) :=
  {[ "S1" := {[ "student_name" := "Asha"; "father_name" := "Imran";
                "class_category" := "Five"; "phone" := "0300-0000000" ]} ]}.

End Scenario.

(** * Properties *)

(** ** The verification workflow *)

Section verification.
Import PaymentNotifications.

Implicit Types (p : payment) (sp : list payment) (payments : store).
Implicit Types (tid : option string) (now user : string).

(** Update of the first match, the common shape of both inner loops. *)
Lemma first_match_lookup (f : payment → payment) tid sp j :
  (match list_find (λ payment, transaction_id payment = tid) sp with
   | Some (i, _) => alter f i sp
   | None => sp
   end) !! j =
  match list_find (λ payment, transaction_id payment = tid) sp with
  | Some (i, _) => if decide (i = j) then f <$> sp !! j else sp !! j
  | None => sp !! j
  end.
Proof.
  destruct (list_find _ sp) as [[i q]|]; [|done].
  rewrite list_lookup_alter. by destruct (decide (i = j)) as [->|].
Qed.

Lemma first_match_no_match (f : payment → payment) tid sp :
  Forall (λ p, transaction_id p ≠ tid) sp →
  (match list_find (λ payment, transaction_id payment = tid) sp with
   | Some (i, _) => alter f i sp
   | None => sp
   end) = sp.
Proof.
  intros Hno. by rewrite (proj2 (list_find_None _ sp) Hno).
Qed.

Lemma verify_student_payments_lookup tid now user sp j p :
  sp !! j = Some p →
  verify_student_payments tid now user sp !! j = Some p ∨
  (verify_student_payments tid now user sp !! j = Some (mark_verified now user p)
   ∧ list_find (λ payment, transaction_id payment = tid) sp = Some (j, p)).
Proof.
  intros Hj. unfold verify_student_payments. rewrite first_match_lookup.
  destruct (list_find _ sp) as [[i q]|] eqn:Hfind; [|by left].
  destruct (decide (i = j)) as [->|]; [|by left].
  right. rewrite Hj. split; [done|].
  apply list_find_Some in Hfind as (Hq & _). congruence.
Qed.

Lemma reject_student_payments_lookup tid now user sp j p :
  sp !! j = Some p →
  reject_student_payments tid now user sp !! j = Some p ∨
  (reject_student_payments tid now user sp !! j = Some (mark_rejected now user p)
   ∧ list_find (λ payment, transaction_id payment = tid) sp = Some (j, p)).
Proof.
  intros Hj. unfold reject_student_payments. rewrite first_match_lookup.
  destruct (list_find _ sp) as [[i q]|] eqn:Hfind; [|by left].
  destruct (decide (i = j)) as [->|]; [|by left].
  right. rewrite Hj. split; [done|].
  apply list_find_Some in Hfind as (Hq & _). congruence.
Qed.

Lemma verify_payments_lookup tid now user payments k sid sp :
  payments !! k = Some (sid, sp) →
  verify_payments tid now user payments !! k
  = Some (sid, verify_student_payments tid now user sp).
Proof. intros Hk. unfold verify_payments. by rewrite list_lookup_fmap, Hk. Qed.

Lemma reject_payments_lookup tid now user payments k sid sp :
  payments !! k = Some (sid, sp) →
  reject_payments tid now user payments !! k
  = Some (sid, reject_student_payments tid now user sp).
Proof. intros Hk. unfold reject_payments. by rewrite list_lookup_fmap, Hk. Qed.

(** One admin action on a parsed store: the store stays parsed, every
    record keeps its place and its transaction id, and its status is
    either kept or set to the action's terminal status. *)
Lemma run_op_record op payments k sid sp i p :
  payments !! k = Some (sid, sp) → sp !! i = Some p →
  ∃ payments' sp' p',
    (run_op op (Parsed payments)).2 = Parsed payments' ∧
    payments' !! k = Some (sid, sp') ∧ sp' !! i = Some p' ∧
    transaction_id p' = transaction_id p ∧
    (status p' = status p ∨
     (op_transaction_id op = transaction_id p ∧ is_terminal (status p'))).
Proof.
  intros Hk Hi. destruct op as [now cu pd|now cu pd].
  - exists (verify_payments (transaction_id pd) now (default "Admin" cu) payments),
      (verify_student_payments (transaction_id pd) now (default "Admin" cu) sp).
    destruct (verify_student_payments_lookup (transaction_id pd) now
                (default "Admin" cu) sp i p Hi) as [Hsame|[Hnew Hfind]].
    + exists p. split_and!; auto using verify_payments_lookup.
    + exists (mark_verified now (default "Admin" cu) p).
      apply list_find_Some in Hfind as (_ & Htid & _).
      split_and!; auto using verify_payments_lookup.
      right. split; [done|]. by left.
  - exists (reject_payments (transaction_id pd) now (default "Admin" cu) payments),
      (reject_student_payments (transaction_id pd) now (default "Admin" cu) sp).
    destruct (reject_student_payments_lookup (transaction_id pd) now
                (default "Admin" cu) sp i p Hi) as [Hsame|[Hnew Hfind]].
    + exists p. split_and!; auto using reject_payments_lookup.
    + exists (mark_rejected now (default "Admin" cu) p).
      apply list_find_Some in Hfind as (_ & Htid & _).
      split_and!; auto using reject_payments_lookup.
      right. split; [done|]. by right.
Qed.

Lemma run_ops_cons op ops file :
  run_ops (op :: ops) file = run_ops ops (run_op op file).2.
Proof. done. Qed.

Lemma run_ops_parsed ops payments :
  ∃ payments', run_ops ops (Parsed payments) = Parsed payments'.
Proof.
  revert payments. induction ops as [|op ops IH]; intros payments; [by eexists|].
  rewrite run_ops_cons. destruct op; simpl; apply IH.
Qed.

(** C1, counterexample.  The lifecycle has no guard on the current
    status: rejecting a verified request makes it rejected, and verifying
    a rejected request makes it verified. *)
Lemma terminal_status_overwritten :
  is_terminal (status Scenario.txn1_verified) ∧
  file_statuses
    (reject_parent_payment "2024-05-03 09:00:00" None
       (Parsed [("S1", [Scenario.txn1_verified])]) Scenario.txn1_verified).2
  = [["rejected"]] ∧
  is_terminal (status Scenario.txn1_rejected) ∧
  file_statuses
    (verify_parent_payment "2024-05-03 09:00:00" None
       (Parsed [("S1", [Scenario.txn1_rejected])]) Scenario.txn1_rejected).2
  = [["verified"]].
Proof. split_and!; [by left|reflexivity|by right|reflexivity]. Qed.

(** C1, amended.  Through any sequence of verify and reject calls a
    request keeps its place and its transaction id, and its status is
    either the one it had or a terminal one: a verified or rejected
    request stays verified or rejected (possibly the other of the two),
    no request returns to pending or pending_verification, and calls
    that carry another transaction id leave its status as it was. *)
Theorem status_never_returns_to_pending ops payments k sid sp i p :
  payments !! k = Some (sid, sp) → sp !! i = Some p →
  ∃ payments' sp' p',
    run_ops ops (Parsed payments) = Parsed payments' ∧
    payments' !! k = Some (sid, sp') ∧ sp' !! i = Some p' ∧
    transaction_id p' = transaction_id p ∧
    (status p' = status p ∨ is_terminal (status p')) ∧
    (is_terminal (status p) → is_terminal (status p')) ∧
    (status p ≠ "pending_verification" → status p' ≠ "pending_verification") ∧
    (status p ≠ "pending" → status p' ≠ "pending") ∧
    (Forall (λ op, op_transaction_id op ≠ transaction_id p) ops →
     status p' = status p).
Proof.
  revert payments sp p. induction ops as [|op ops IH]; intros payments sp p Hk Hi.
  { exists payments, sp, p. split_and!; auto. }
  destruct (run_op_record op payments k sid sp i p Hk Hi)
    as (payments1 & sp1 & p1 & Hrun & Hk1 & Hi1 & Htid1 & Hst1).
  destruct (IH payments1 sp1 p1 Hk1 Hi1)
    as (payments' & sp' & p' & Hrun' & Hk' & Hi' & Htid' & Hst' & Hterm' & Hpv & Hpe & Hfr).
  exists payments', sp', p'. rewrite run_ops_cons, Hrun.
  assert (Hst : status p' = status p ∨ is_terminal (status p')).
  { destruct Hst' as [Heq|Ht]; [|by right].
    rewrite Heq. destruct Hst1 as [?|[_ ?]]; [by left|by right]. }
  split_and!; [done|done|done|congruence|done|..].
  - intros Ht. destruct Hst as [Heq|?]; [by rewrite Heq|done].
  - intros Hne Heq. destruct Hst as [Heq'|[Hv|Hr]]; congruence.
  - intros Hne Heq. destruct Hst as [Heq'|[Hv|Hr]]; congruence.
  - intros Hall. apply Forall_cons in Hall as [Hop Hall].
    destruct Hst1 as [Heq1|[Hop1 _]]; [|done].
    rewrite <- Heq1. apply Hfr. by rewrite Htid1.
Qed.

Lemma status_never_returns_to_pending_witness :
  ∃ payments' sp' p',
    run_ops [Reject "2024-05-03 09:00:00" None Scenario.txn1_verified;
             Verify "2024-05-05 09:00:00" (Some "Clerk") Scenario.txn2_pending]
      (Parsed [("S1", [Scenario.txn1_verified; Scenario.txn2_pending])])
    = Parsed payments' ∧
    payments' !! 0%nat = Some ("S1", sp') ∧ sp' !! 0%nat = Some p' ∧
    transaction_id p' = transaction_id Scenario.txn1_verified ∧
    (status p' = status Scenario.txn1_verified ∨ is_terminal (status p')) ∧
    (is_terminal (status Scenario.txn1_verified) → is_terminal (status p')) ∧
    (status Scenario.txn1_verified ≠ "pending_verification" →
     status p' ≠ "pending_verification") ∧
    (status Scenario.txn1_verified ≠ "pending" → status p' ≠ "pending") ∧
    (Forall (λ op, op_transaction_id op ≠ transaction_id Scenario.txn1_verified)
       [Reject "2024-05-03 09:00:00" None Scenario.txn1_verified;
        Verify "2024-05-05 09:00:00" (Some "Clerk") Scenario.txn2_pending] →
     status p' = status Scenario.txn1_verified).
Proof.
  apply (status_never_returns_to_pending _ _ 0%nat "S1"
           [Scenario.txn1_verified; Scenario.txn2_pending] 0%nat);
    reflexivity.
Defined.

(** *** Verify on a missing file, and with no matching request *)

Lemma verify_payments_no_match tid now user payments :
  no_match tid payments → verify_payments tid now user payments = payments.
Proof.
  unfold no_match, verify_payments. induction 1 as [|[sid sp] payments Hsp _ IH]; [done|].
  rewrite fmap_cons, IH. simpl. unfold verify_student_payments.
  by rewrite first_match_no_match.
Qed.

(** C2, counterexample.  The store holds one request, TXN1; a verify
    call for TXN2 matches nothing and still answers [true]. *)
Lemma verify_unmatched_returns_true :
  no_match (transaction_id Scenario.txn2_pending) [("S1", [Scenario.txn1_pending])] ∧
  (verify_parent_payment "2024-05-05 09:00:00" None
     (Parsed [("S1", [Scenario.txn1_pending])]) Scenario.txn2_pending).1 = true.
Proof.
  split; [|reflexivity].
  repeat constructor. discriminate.
Qed.

(** C2, amended.  [verify_parent_payment] answers [False] when the
    store file is missing and leaves it missing; when the file parses
    and no request carries the transaction id, it rewrites the store
    with the content it read and answers [True]. *)
Theorem verify_missing_or_unmatched now current_user payments payment_data :
  no_match (transaction_id payment_data) payments →
  verify_parent_payment now current_user Missing payment_data = (false, Missing) ∧
  verify_parent_payment now current_user (Parsed payments) payment_data
  = (true, Parsed payments).
Proof.
  intros Hno. split; [done|]. simpl. by rewrite verify_payments_no_match.
Qed.

Lemma verify_missing_or_unmatched_witness :
  verify_parent_payment "2024-05-05 09:00:00" None Missing Scenario.txn2_pending
  = (false, Missing) ∧
  verify_parent_payment "2024-05-05 09:00:00" None
    (Parsed [("S1", [Scenario.txn1_pending])]) Scenario.txn2_pending
  = (true, Parsed [("S1", [Scenario.txn1_pending])]).
Proof.
  apply verify_missing_or_unmatched.
  repeat constructor. discriminate.
Defined.

(** *** Verifying twice *)

(** Within one student's list the verify loop rewrites the first record
    that carries the transaction id, and only that one. *)
Lemma verify_student_payments_first tid now user sp i p :
  list_find (λ payment, transaction_id payment = tid) sp = Some (i, p) →
  verify_student_payments tid now user sp !! i = Some (mark_verified now user p) ∧
  ∀ j, j ≠ i → verify_student_payments tid now user sp !! j = sp !! j.
Proof.
  intros Hfind. unfold verify_student_payments. rewrite Hfind.
  apply list_find_Some in Hfind as (Hi & _). split.
  - by rewrite list_lookup_alter_eq, Hi.
  - intros j Hj. by rewrite list_lookup_alter_ne.
Qed.

(** A marked record still carries its transaction id, so the loop finds
    the same index again. *)
Lemma list_find_verified tid now user sp :
  list_find (λ payment, transaction_id payment = tid)
    (verify_student_payments tid now user sp)
  = prod_map id (mark_verified now user)
      <$> list_find (λ payment, transaction_id payment = tid) sp.
Proof.
  unfold verify_student_payments.
  destruct (list_find _ sp) as [[i q]|] eqn:Hfind; simpl; [|done].
  apply list_find_Some in Hfind as (Hi & Hq & Hleast).
  apply list_find_Some. split_and!.
  - by rewrite list_lookup_alter_eq, Hi.
  - done.
  - intros j y Hj Hlt. rewrite list_lookup_alter_ne in Hj by lia. eauto.
Qed.

Lemma verify_student_payments_statuses tid now1 now2 user1 user2 sp :
  status <$> verify_student_payments tid now2 user2
               (verify_student_payments tid now1 user1 sp)
  = status <$> verify_student_payments tid now1 user1 sp.
Proof.
  unfold verify_student_payments at 1. rewrite list_find_verified.
  destruct (list_find _ sp) as [[i q]|] eqn:Hfind; simpl; [|done].
  apply list_eq. intros j. rewrite !list_lookup_fmap.
  destruct (decide (i = j)) as [->|Hne].
  - rewrite list_lookup_alter_eq.
    destruct (verify_student_payments_first tid now1 user1 sp j q Hfind) as [-> _].
    done.
  - by rewrite list_lookup_alter_ne.
Qed.

Lemma verify_student_payments_idem tid now user sp :
  verify_student_payments tid now user (verify_student_payments tid now user sp)
  = verify_student_payments tid now user sp.
Proof.
  unfold verify_student_payments at 1. rewrite list_find_verified.
  destruct (list_find _ sp) as [[i q]|] eqn:Hfind; simpl; [|done].
  apply list_eq. intros j.
  destruct (decide (i = j)) as [->|Hne].
  - rewrite list_lookup_alter_eq.
    destruct (verify_student_payments_first tid now user sp j q Hfind) as [-> _].
    done.
  - by rewrite list_lookup_alter_ne.
Qed.

(** C3, counterexample.  The second verify call for the same
    transaction id answers [true], and under a later clock reading it
    re-stamps the record, so the file it writes differs from the file it
    read. *)
Lemma second_verify_returns_true :
  let first :=
    verify_parent_payment "2024-05-02 09:00:00" None
      (Parsed [("S1", [Scenario.txn1_pending])]) Scenario.txn1_pending in
  let second :=
    verify_parent_payment "2024-05-06 17:45:00" None first.2 Scenario.txn1_pending in
  second.1 = true ∧ second.2 ≠ first.2.
Proof. split; [reflexivity|discriminate]. Qed.

Lemma some_match tid payments :
  ¬ no_match tid payments →
  ∃ k sid sp i p,
    payments !! k = Some (sid, sp) ∧
    list_find (λ payment, transaction_id payment = tid) sp = Some (i, p).
Proof.
  unfold no_match. intros Hsome.
  apply not_Forall_Exists in Hsome; [|apply _].
  apply Exists_exists in Hsome as ([sid sp] & Hentry & Hsp). simpl in Hsp.
  apply list_elem_of_lookup in Hentry as [k Hk].
  destruct (list_find (λ payment, transaction_id payment = tid) sp)
    as [[i p]|] eqn:Hfind.
  - by exists k, sid, sp, i, p.
  - destruct Hsp. by apply (list_find_None (λ payment, transaction_id payment = tid)).
Qed.

(** C3, amended.  The first verify call sets the status of the first
    matching request of every student to verified.  A second call with
    the same transaction id is not an error: it answers [True] again and
    changes no status.  It finds the same records and stamps them anew:
    each ends as if only the second call had marked it, with the second
    call's clock reading and user, and every other record is the one the
    first call left.  So the store is identical before and after the
    second call exactly when no record carries the transaction id or the
    clock reading and the user of both calls are the same. *)
Theorem verify_twice now1 now2 cu1 cu2 payments payment_data :
  let tid := transaction_id payment_data in
  let user1 := default "Admin" cu1 in
  let user2 := default "Admin" cu2 in
  let first := verify_parent_payment now1 cu1 (Parsed payments) payment_data in
  let second := verify_parent_payment now2 cu2 first.2 payment_data in
  first.1 = true ∧
  (∀ k sid sp i p,
     payments !! k = Some (sid, sp) →
     list_find (λ payment, transaction_id payment = tid) sp = Some (i, p) →
     ∃ sp', first.2 = Parsed (verify_payments tid now1 user1 payments) ∧
            verify_payments tid now1 user1 payments !! k = Some (sid, sp') ∧
            status <$> sp' !! i = Some "verified") ∧
  second.1 = true ∧
  file_statuses second.2 = file_statuses first.2 ∧
  (∀ k sid sp,
     payments !! k = Some (sid, sp) →
     ∃ sp1 sp2,
       file_entries first.2 !! k = Some (sid, sp1) ∧
       file_entries second.2 !! k = Some (sid, sp2) ∧
       match list_find (λ payment, transaction_id payment = tid) sp with
       | Some (i, p) =>
         sp1 !! i = Some (mark_verified now1 user1 p) ∧
         sp2 !! i = Some (mark_verified now2 user2 p) ∧
         verified_at (mark_verified now2 user2 p) = Some now2 ∧
         verified_by (mark_verified now2 user2 p) = Some user2 ∧
         ∀ j, j ≠ i → sp2 !! j = sp1 !! j ∧ sp1 !! j = sp !! j
       | None => sp1 = sp ∧ sp2 = sp
       end) ∧
  (second.2 = first.2 ↔
   no_match tid payments ∨ (now2 = now1 ∧ user2 = user1)).
Proof.
  cbv zeta. simpl fst. simpl snd.
  set (tid := transaction_id payment_data).
  set (user1 := default "Admin" cu1). set (user2 := default "Admin" cu2).
  assert (Hsecond : ∀ k sid sp,
             payments !! k = Some (sid, sp) →
             verify_payments tid now1 user1 payments !! k
             = Some (sid, verify_student_payments tid now1 user1 sp) ∧
             verify_payments tid now2 user2 (verify_payments tid now1 user1 payments) !! k
             = Some (sid, verify_student_payments tid now2 user2
                            (verify_student_payments tid now1 user1 sp))).
  { intros k sid sp Hk.
    pose proof (verify_payments_lookup tid now1 user1 payments k sid sp Hk) as Hk1.
    split; [done|]. by apply verify_payments_lookup. }
  assert (Hrecord : ∀ sp i p,
             list_find (λ payment, transaction_id payment = tid) sp = Some (i, p) →
             verify_student_payments tid now1 user1 sp !! i
             = Some (mark_verified now1 user1 p) ∧
             verify_student_payments tid now2 user2
               (verify_student_payments tid now1 user1 sp) !! i
             = Some (mark_verified now2 user2 p) ∧
             ∀ j, j ≠ i →
                  verify_student_payments tid now2 user2
                    (verify_student_payments tid now1 user1 sp) !! j
                  = verify_student_payments tid now1 user1 sp !! j ∧
                  verify_student_payments tid now1 user1 sp !! j = sp !! j).
  { intros sp i p Hfind.
    destruct (verify_student_payments_first tid now1 user1 sp i p Hfind)
      as [Hi1 Hother1].
    assert (Hfind1 : list_find (λ payment, transaction_id payment = tid)
                       (verify_student_payments tid now1 user1 sp)
                     = Some (i, mark_verified now1 user1 p)).
    { by rewrite list_find_verified, Hfind. }
    destruct (verify_student_payments_first tid now2 user2 _ i _ Hfind1)
      as [Hi2 Hother2].
    split_and!; [done|done|]. intros j Hj. split; auto. }
  split_and!; [done| |done| | |].
  - intros k sid sp i p Hk Hfind. eexists. split; [done|].
    split; [by apply verify_payments_lookup|].
    destruct (verify_student_payments_first tid now1 user1 sp i p Hfind) as [-> _].
    done.
  - unfold file_statuses, statuses, verify_payments. rewrite <- !list_fmap_compose.
    apply list_fmap_ext. intros _ [sid sp] _. simpl.
    apply verify_student_payments_statuses.
  - intros k sid sp Hk. destruct (Hsecond k sid sp Hk) as [Hk1 Hk2].
    eexists _, _. split; [exact Hk1|]. split; [exact Hk2|].
    destruct (list_find (λ payment, transaction_id payment = tid) sp)
      as [[i p]|] eqn:Hfind.
    + destruct (Hrecord sp i p Hfind) as (Hi1 & Hi2 & Hother).
      split_and!; done.
    + apply list_find_None in Hfind. unfold verify_student_payments.
      by rewrite !first_match_no_match.
  - split.
    + intros Hsame.
      destruct (decide (no_match tid payments)) as [Hno|Hsome]; [by left|right].
      apply some_match in Hsome as (k & sid & sp & i & p & Hk & Hfind).
      destruct (Hsecond k sid sp Hk) as [Hk1 Hk2].
      destruct (Hrecord sp i p Hfind) as (Hi1 & Hi2 & _).
      injection Hsame as Hsame. rewrite Hsame, Hk1 in Hk2.
      injection Hk2 as Hk2. rewrite <- Hk2, Hi1 in Hi2.
      by injection Hi2 as -> ->.
    + intros [Hno|[-> Huser]].
      * by rewrite (verify_payments_no_match tid now1 user1 payments Hno),
          (verify_payments_no_match tid now2 user2 payments Hno).
      * rewrite Huser. f_equal. unfold verify_payments.
        rewrite <- list_fmap_compose.
        apply list_fmap_ext. intros _ [sid sp] _. simpl.
        by rewrite verify_student_payments_idem.
Qed.

End verification.

(** ** The payment-request store *)

Section request_store.
Import ParentDatabase ParentDashboard.

Implicit Types (file : requests_file) (payments : gmap string (list request)).

(** The request [record_payment_request] builds from its arguments. *)
Lemma record_payment_request_result stamp now file student_id parent_email amount
    payment_type payment_method selected_months :
  let payment_data :=
    {| request_id := "PR_" +:+ stamp; parent_email := parent_email;
       amount := amount; payment_type := payment_type;
       payment_method := payment_method; status := "pending";
       requested_at := now; selected_months := default [] selected_months |} in
  let result := record_payment_request stamp now file student_id parent_email amount
                  payment_type payment_method selected_months in
  result.1 = "PR_" +:+ stamp ∧
  ∃ payments', result.2 = Parsed payments' ∧
    payments' !! student_id
    = Some (get_payment_requests file student_id ++ [Requested payment_data]) ∧
    ∀ other, other ≠ student_id →
      payments' !! other = load_payments (ensure_databases_exist file) !! other.
Proof.
  simpl. split; [done|]. unfold record_payment_request, get_payment_requests.
  set (payments := load_payments (ensure_databases_exist file)).
  eexists. split; [done|]. split.
  - rewrite lookup_alter_eq. destruct (decide (is_Some (payments !! student_id))) as [[l Hl]|Hno].
    + by rewrite Hl.
    + rewrite lookup_insert_eq. apply eq_None_not_Some in Hno. by rewrite Hno.
  - intros other Hne. rewrite lookup_alter_ne by done.
    destruct (decide (is_Some (payments !! student_id))); [done|].
    by rewrite lookup_insert_ne.
Qed.

Lemma ensure_databases_exist_idem file :
  ensure_databases_exist (ensure_databases_exist file) = ensure_databases_exist file.
Proof. by destruct file. Qed.

Lemma load_payments_ensure file :
  load_payments (ensure_databases_exist file) = load_payments file.
Proof. by destruct file. Qed.

(** C8.  After [record_payment_request], the pending listing of the same
    student contains the new request, with the returned request id and
    status pending, whatever the store file held before. *)
Theorem new_request_listed_pending stamp now file sid email amt ptype pmethod months :
  let result := record_payment_request stamp now file sid email amt ptype pmethod months in
  ∃ r, Requested r ∈ pending_requests result.2 sid ∧
       request_id r = result.1 ∧
       status r = "pending" ∧
       request_status (Requested r) = "pending" ∧
       parent_email r = email ∧ amount r = amt ∧
       payment_type r = ptype ∧ payment_method r = pmethod.
Proof.
  intros result.
  destruct (record_payment_request_result stamp now file sid email amt ptype pmethod months)
    as (Hid & payments' & Hfile & Hmine & _).
  subst result. rewrite Hid, Hfile.
  exists {| request_id := "PR_" +:+ stamp; parent_email := email; amount := amt;
            payment_type := ptype; payment_method := pmethod;
            status := "pending"; requested_at := now;
            selected_months := default [] months |}.
  split; [|done].
  unfold pending_requests, get_payment_requests. simpl. rewrite Hmine. simpl.
  apply list_elem_of_filter. split; [done|].
  apply elem_of_app. right. by apply list_elem_of_singleton.
Qed.

(** A missing or unparseable request file reads as the empty store. *)
Lemma get_payment_requests_no_store student_id :
  get_payment_requests Missing student_id = [] ∧
  get_payment_requests Unparseable student_id = [].
Proof. split; reflexivity. Qed.

(** C10.  [record_payment_request] writes a parsed store in which the
    student's list is the list it had (empty for an absent student, a
    missing file or an unparseable file) followed by exactly one new
    request, and every other student's entry is the one the store held
    before. *)
Theorem record_payment_request_frame stamp now file sid email amt ptype pmethod months :
  let result := record_payment_request stamp now file sid email amt ptype pmethod months in
  ∃ r payments',
    result.2 = Parsed payments' ∧
    get_payment_requests result.2 sid
    = get_payment_requests file sid ++ [Requested r] ∧
    length (get_payment_requests result.2 sid)
    = S (length (get_payment_requests file sid)) ∧
    (∀ i req, get_payment_requests file sid !! i = Some req →
              get_payment_requests result.2 sid !! i = Some req) ∧
    (∀ other, other ≠ sid →
       payments' !! other = load_payments file !! other ∧
       get_payment_requests result.2 other = get_payment_requests file other) ∧
    request_id r = result.1 ∧ status r = "pending".
Proof.
  intros result.
  destruct (record_payment_request_result stamp now file sid email amt ptype pmethod months)
    as (Hid & payments' & Hfile & Hmine & Hother).
  assert (Hget : get_payment_requests result.2 sid
                 = get_payment_requests file sid ++
                   [Requested {| request_id := "PR_" +:+ stamp;
                                 parent_email := email; amount := amt;
                                 payment_type := ptype;
                                 payment_method := pmethod;
                                 status := "pending"; requested_at := now;
                                 selected_months := default [] months |}]).
  { subst result. rewrite Hfile. unfold get_payment_requests at 1. simpl.
    by rewrite Hmine. }
  eexists _, payments'. split_and!; [done|exact Hget|..].
  - rewrite Hget, length_app. simpl. lia.
  - intros i req Hi. rewrite Hget. by apply lookup_app_l_Some.
  - intros other Hne. rewrite <- (load_payments_ensure file), <- (Hother other Hne).
    split; [done|]. subst result. rewrite Hfile.
    unfold get_payment_requests. simpl. by rewrite (Hother other Hne).
  - done.
  - done.
Qed.

End request_store.

(** ** Numbers *)

Section numbers.

Lemma Qpositive_spec (x : Q) : Qpositive x = true ↔ (0 < x)%Q.
Proof.
  unfold Qpositive, Qlt. simpl. rewrite Z.ltb_lt, Z.mul_1_r. done.
Qed.





(** Zero is rounded to zero, at any number of decimals by Python and at
    one decimal by numpy. *)
Lemma round_zero (ndigits : nat) :
  py_round 0 ndigits = 0%float ∧ np_round 0 1 = 0%float.
Proof. split; reflexivity. Qed.

(** [round_half_even] returns a nearest integer, and the even one of
    the two on a tie. *)
Lemma round_half_even_nearest (x : Q) :
  (Qabs (x - inject_Z (round_half_even x)) <= 1 # 2)%Q ∧
  ((Qabs (x - inject_Z (round_half_even x)) == 1 # 2)%Q →
   Z.even (round_half_even x) = true).
Proof.
  unfold round_half_even.
  pose proof (Qfloor_le x) as Hlo. pose proof (Qlt_floor x) as Hhi.
  rewrite inject_Z_plus in Hhi. change (inject_Z 1) with 1%Q in Hhi.
  destruct (x - inject_Z (Qfloor x) ?= 1 # 2)%Q eqn:Hcmp.
  - apply Qeq_alt in Hcmp.
    destruct (Z.even (Qfloor x)) eqn:Heven.
    + split; [|done]. apply Qabs_Qle_condition.
      set (lo := inject_Z (Qfloor x)) in *. clearbody lo. split; lra.
    + split.
      * rewrite inject_Z_plus. change (inject_Z 1) with 1%Q.
        apply Qabs_Qle_condition.
        set (lo := inject_Z (Qfloor x)) in *. clearbody lo. split; lra.
      * intros _. by rewrite Z.even_add, Heven.
  - apply Qlt_alt in Hcmp.
    set (lo := inject_Z (Qfloor x)) in *. clearbody lo. split.
    + apply Qabs_Qle_condition. split; lra.
    + intros Habs. rewrite Qabs_pos in Habs by lra. lra.
  - apply Qgt_alt in Hcmp. rewrite inject_Z_plus. change (inject_Z 1) with 1%Q.
    set (lo := inject_Z (Qfloor x)) in *. clearbody lo. split.
    + apply Qabs_Qle_condition. split; lra.
    + intros Habs. rewrite Qabs_neg in Habs by lra. lra.
Qed.

(** [decimal_round x n] is a multiple [k / 10^n] nearest to [x], with
    [k] even on a tie. *)
Lemma decimal_round_nearest (x : Q) (ndigits : nat) :
  let scale := inject_Z (10 ^ Z.of_nat ndigits) in
  ∃ k : Z,
    decimal_round x ndigits = (inject_Z k / scale)%Q ∧
    (Qabs (x * scale - inject_Z k) <= 1 # 2)%Q ∧
    ((Qabs (x * scale - inject_Z k) == 1 # 2)%Q → Z.even k = true).
Proof.
  intros scale. exists (round_half_even (x * scale)).
  split; [done|]. apply round_half_even_nearest.
Qed.

Example decimal_round_samples :
  decimal_round (5 # 2) 0 = 2%Q ∧ decimal_round (7 # 2) 0 = 4%Q ∧
  decimal_round (-5 # 2) 0 = (-2)%Q ∧
  decimal_round (6000 / 49500 * 100) 2 = 12.12%Q ∧
  decimal_round (6000 / 49500 * 100) 1 = 12.1%Q.
Proof. split_and!; reflexivity. Qed.

(** Doubles as Python reads and prints them: [Q2F 0.1] is the double
    Python writes [0.1]. *)
Example Q2F_samples :
  Q2F 3000 = 3000%float ∧ Q2F (7 # 2) = 3.5%float ∧ Q2F (-7 # 2) = (-3.5)%float ∧
  Q2F 0.1 = 0x1.999999999999ap-4%float ∧ Q2F (1 # 3) = 0x1.5555555555555p-2%float ∧
  F2Q (Q2F 0.1) = Some (3602879701896397 # 36028797018963968) ∧
  F2Q 3.5 = Some (7 # 2) ∧ F2Q infinity = None.
Proof. split_and!; reflexivity. Qed.

(** [round] in binary64.  5450 / 40000 * 100 is the double just above
    13.625 and 1818 / 36000 * 100 the double just above 5.05: Python
    reads 13.63 and 5.1 where the exact quotients, ties, would read
    13.62 and 5.0.  The double 1.15 lies below 1.15: Python rounds it
    to 1.1, numpy, which scales it to the double 11.5 first, to 1.2. *)
Example round_samples :
  py_round (5450 / 40000 * 100) 2 = Q2F 13.63 ∧
  decimal_round (5450 / 40000 * 100) 2 = 13.62%Q ∧
  py_round (1818 / 36000 * 100) 1 = Q2F 5.1 ∧
  np_round (1818 / 36000 * 100) 1 = Q2F 5.1 ∧
  decimal_round (1818 / 36000 * 100) 1 = 5.0%Q ∧
  py_round 2.5 0 = 2%float ∧ py_round 3.5 0 = 4%float ∧
  py_round (-2.5) 0 = (-2)%float ∧
  py_round (Q2F 2.675) 2 = Q2F 2.67 ∧
  py_round (Q2F 1.15) 1 = Q2F 1.1 ∧ np_round (Q2F 1.15) 1 = Q2F 1.2 ∧
  py_round (6000 / 49500 * 100) 2 = Q2F 12.12 ∧
  np_round (6000 / 49500 * 100) 1 = Q2F 12.1.
Proof. split_and!; reflexivity. Qed.

(** The worked example in binary64: 6000 / 49500 * 100 lies strictly
    between 12.1171875 and 12.125, so it reads 12.12 at two decimals and
    12.1 at one, as it does on the rationals. *)
Example scenario_in_binary64 :
  (12.1171875 <? 6000 / 49500 * 100)%float = true ∧
  (6000 / 49500 * 100 <? 12.125)%float = true.
Proof. split; reflexivity. Qed.

End numbers.

(** ** The fee summary, on both calculation paths *)

Section fee_summary.
Import Ledger.

Implicit Types (STUDENT_DETAILS : option (gmap string (gmap string string))).
Implicit Types (STUDENT_FEES : option (gmap string (gmap string Q))).
Implicit Types (FEES_DATA : option (list fee_row)) (df : list fee_row).

Lemma falsy_false {V} (d : option (gmap string V)) :
  ParentDatabase.falsy d = false ↔ ∃ m, d = Some m ∧ size m ≠ 0%nat.
Proof.
  destruct d as [m|]; simpl.
  - rewrite bool_decide_eq_false. split; [by eauto|]. by intros (? & [= <-] & ?).
  - split; [done|]. by intros (? & ? & ?).
Qed.

(** What a summary returned by [get_student_fee_summary] holds. *)
Lemma get_student_fee_summary_Some STUDENT_DETAILS STUDENT_FEES FEES_DATA student_id s :
  ParentDatabase.get_student_fee_summary STUDENT_DETAILS STUDENT_FEES FEES_DATA student_id
  = Some s →
  ∃ student fees,
    ParentDatabase.get_student_details STUDENT_DETAILS student_id = Some student ∧
    size student ≠ 0%nat ∧
    ParentDatabase.get_student_fees STUDENT_FEES student_id = Some fees ∧
    size fees ≠ 0%nat ∧
    s = {| ParentDatabase.summary_student_id := student_id;
           ParentDatabase.summary_student_name := default "N/A" (student !! "name");
           ParentDatabase.summary_class := default "N/A" (student !! "class");
           ParentDatabase.monthly_fee := default 0%Q (fees !! "monthly_fee");
           ParentDatabase.admission_fee := default 0%Q (fees !! "admission_fee");
           ParentDatabase.annual_fee := default 0%Q (fees !! "annual_fee");
           ParentDatabase.total_yearly_due :=
             (default 0 (fees !! "monthly_fee") * 12
              + default 0 (fees !! "admission_fee")
              + default 0 (fees !! "annual_fee"))%Q;
           ParentDatabase.total_received :=
             ParentDatabase.received_amount student_id FEES_DATA;
           ParentDatabase.balance_due :=
             py_max 0 (default 0 (fees !! "monthly_fee") * 12
                       + default 0 (fees !! "admission_fee")
                       + default 0 (fees !! "annual_fee")
                       - ParentDatabase.received_amount student_id FEES_DATA)%Q;
           ParentDatabase.percentage_paid :=
             py_round
               (if Qpositive (default 0 (fees !! "monthly_fee") * 12
                              + default 0 (fees !! "admission_fee")
                              + default 0 (fees !! "annual_fee"))%Q
                then Q2F (ParentDatabase.received_amount student_id FEES_DATA)
                     / Q2F (default 0 (fees !! "monthly_fee") * 12
                            + default 0 (fees !! "admission_fee")
                            + default 0 (fees !! "annual_fee"))%Q * 100
                else 0)%float 2 |}.
Proof.
  unfold ParentDatabase.get_student_fee_summary.
  destruct (ParentDatabase.falsy (ParentDatabase.get_student_details _ _)) eqn:Hs;
    [done|].
  destruct (ParentDatabase.falsy (ParentDatabase.get_student_fees _ _)) eqn:Hf;
    [done|].
  apply falsy_false in Hs as (student & Hs & Hsn).
  apply falsy_false in Hf as (fees & Hf & Hfn).
  simpl. rewrite Hs, Hf. simpl. intros [= <-]. by exists student, fees.
Qed.

(** A student with a non-empty identity record and a non-empty
    fee-schedule record gets a summary. *)
Lemma get_student_fee_summary_is_Some STUDENT_DETAILS STUDENT_FEES FEES_DATA
    student_id student fees :
  ParentDatabase.get_student_details STUDENT_DETAILS student_id = Some student →
  size student ≠ 0%nat →
  ParentDatabase.get_student_fees STUDENT_FEES student_id = Some fees →
  size fees ≠ 0%nat →
  is_Some (ParentDatabase.get_student_fee_summary
             STUDENT_DETAILS STUDENT_FEES FEES_DATA student_id).
Proof.
  intros Hs Hsn Hf Hfn. unfold ParentDatabase.get_student_fee_summary.
  rewrite Hs, Hf. simpl.
  rewrite !bool_decide_eq_false_2 by done. by eexists.
Qed.

Lemma existsb_cell_positive (column : fee_row → option Q) (rows : list fee_row) :
  existsb (λ row, ParentPortal.cell_positive (column row)) rows = true ↔
  ∃ row x, row ∈ rows ∧ column row = Some x ∧ (0 < x)%Q.
Proof.
  rewrite existsb_exists. split.
  - intros (row & Hin & Hpos). destruct (column row) as [x|] eqn:Hx; [|done].
    exists row, x. split_and!; [by apply list_elem_of_In|done|by apply Qpositive_spec].
  - intros (row & x & Hin & Hx & Hpos). exists row.
    split; [by apply list_elem_of_In|]. rewrite Hx. by apply Qpositive_spec.
Qed.

(** What the details returned by [get_student_fee_details] hold. *)
Lemma get_student_fee_details_Some df student_details student_fees default_fees
    student_id d :
  ParentPortal.get_student_fee_details df student_details student_fees default_fees
    student_id = Some d →
  let student_records := filter (λ row, ID row = student_id) df in
  is_Some (student_details !! student_id) ∧
  ParentPortal.monthly_fee d
  = ParentPortal.get_student_monthly_fee student_fees default_fees student_id ∧
  ParentPortal.annual_fee d
  = ParentPortal.get_student_annual_fee student_fees default_fees student_id ∧
  ParentPortal.admission_fee d
  = ParentPortal.get_student_admission_fee student_fees default_fees student_id ∧
  ParentPortal.annual_paid d
  = existsb (λ row, ParentPortal.cell_positive (Annual_Charges row)) student_records ∧
  ParentPortal.admission_paid d
  = existsb (λ row, ParentPortal.cell_positive (Admission_Fee row)) student_records ∧
  ParentPortal.total_received d
  = ParentPortal.column_sum Received_Amount student_records ∧
  ParentPortal.total_due d
  = (ParentPortal.monthly_fee d * 12
     + (if ParentPortal.annual_paid d then 0 else ParentPortal.annual_fee d)
     + (if ParentPortal.admission_paid d then 0 else ParentPortal.admission_fee d))%Q ∧
  ParentPortal.balance_due d
  = py_max 0 (ParentPortal.total_due d - ParentPortal.total_received d) ∧
  ParentPortal.percentage_paid d
  = np_round (if Qpositive (ParentPortal.total_due d)
              then Q2F (ParentPortal.total_received d)
                   / Q2F (ParentPortal.total_due d) * 100
              else 0)%float 1 ∧
  (ParentPortal.paid_months d, ParentPortal.unpaid_months d)
  = ParentPortal.resolve_months student_records ParentPortal.all_months.
Proof.
  unfold ParentPortal.get_student_fee_details.
  destruct (student_details !! student_id) as [info|]; [|done].
  intros Hd. apply (inj Some) in Hd. subst d.
  cbn [ParentPortal.monthly_fee ParentPortal.annual_fee ParentPortal.admission_fee
       ParentPortal.annual_paid ParentPortal.admission_paid ParentPortal.total_received
       ParentPortal.total_due ParentPortal.balance_due ParentPortal.percentage_paid
       ParentPortal.paid_months ParentPortal.unpaid_months].
  split_and!; try done.
  - by destruct (existsb _ _), (existsb _ _).
  - by destruct (ParentPortal.resolve_months _ _).
Qed.

(** The worked example: student S1, monthly fee 3000, annual fee 3500,
    admission fee 10000, APRIL and MAY paid. *)
Example summary_of_S1 :
  (λ s, (ParentDatabase.total_yearly_due s, ParentDatabase.total_received s,
         ParentDatabase.balance_due s, ParentDatabase.percentage_paid s))
    <$> ParentDatabase.get_student_fee_summary (Some Scenario.STUDENT_DETAILS)
          (Some Scenario.STUDENT_FEES) (Some Scenario.ledger) "S1"
  = Some (49500%Q, 6000%Q, 43500%Q, Q2F 12.12).
Proof. reflexivity. Qed.

Example details_of_S1 :
  (λ d, (ParentPortal.total_due d, ParentPortal.total_received d,
         ParentPortal.balance_due d, ParentPortal.percentage_paid d))
    <$> ParentPortal.get_student_fee_details Scenario.ledger Scenario.student_details
          (Some Scenario.STUDENT_FEES) None "S1"
  = Some (49500%Q, 6000%Q, 43500%Q, Q2F 12.1).
Proof. reflexivity. Qed.

(** C4, counterexample.  S1 has an identity record and the fee schedule
    3000 / 3500 / 10000; once the ledger holds a row with annual charges,
    [get_student_fee_details] reports a total due of 46000, not
    3000*12 + 10000 + 3500 = 49500. *)
Lemma details_total_due_drops_paid_annual_fee :
  (λ d, (ParentPortal.monthly_fee d, ParentPortal.admission_fee d,
         ParentPortal.annual_fee d, ParentPortal.total_due d))
    <$> ParentPortal.get_student_fee_details (Scenario.annual_row :: Scenario.ledger)
          Scenario.student_details (Some Scenario.STUDENT_FEES) None "S1"
  = Some (3000, 10000, 3500, 46000)%Q ∧
  (3000 * 12 + 10000 + 3500 == 49500)%Q ∧
  ¬ (46000 == 49500)%Q.
Proof. split_and!; [reflexivity|reflexivity|discriminate]. Qed.

(** C4, amended.  For a student with a non-empty identity record and a
    non-empty fee-schedule record, [get_student_fee_summary] returns a
    summary whose total due is monthly fee * 12 + admission fee + annual
    fee of the schedule, whatever the ledger holds.  For a student with
    an identity record, [get_student_fee_details] returns details whose
    total due is monthly fee * 12, plus the annual fee unless a ledger
    row of the student has annual charges above zero, plus the admission
    fee unless a ledger row of the student has an admission fee above
    zero. *)
Theorem total_due_by_path STUDENT_DETAILS STUDENT_FEES FEES_DATA student_id student fees
    df student_details student_fees default_fees student_id' info :
  ParentDatabase.get_student_details STUDENT_DETAILS student_id = Some student →
  size student ≠ 0%nat →
  ParentDatabase.get_student_fees STUDENT_FEES student_id = Some fees →
  size fees ≠ 0%nat →
  student_details !! student_id' = Some info →
  (∃ s, ParentDatabase.get_student_fee_summary
          STUDENT_DETAILS STUDENT_FEES FEES_DATA student_id = Some s ∧
        ParentDatabase.monthly_fee s = default 0%Q (fees !! "monthly_fee") ∧
        ParentDatabase.admission_fee s = default 0%Q (fees !! "admission_fee") ∧
        ParentDatabase.annual_fee s = default 0%Q (fees !! "annual_fee") ∧
        ParentDatabase.total_yearly_due s
        = (ParentDatabase.monthly_fee s * 12 + ParentDatabase.admission_fee s
           + ParentDatabase.annual_fee s)%Q) ∧
  (∃ d, ParentPortal.get_student_fee_details df student_details student_fees
          default_fees student_id' = Some d ∧
        ParentPortal.total_due d
        = (ParentPortal.monthly_fee d * 12
           + (if ParentPortal.annual_paid d then 0 else ParentPortal.annual_fee d)
           + (if ParentPortal.admission_paid d then 0
              else ParentPortal.admission_fee d))%Q ∧
        (ParentPortal.annual_paid d = true ↔
         ∃ row x, row ∈ df ∧ ID row = student_id' ∧
                  Annual_Charges row = Some x ∧ (0 < x)%Q) ∧
        (ParentPortal.admission_paid d = true ↔
         ∃ row x, row ∈ df ∧ ID row = student_id' ∧
                  Admission_Fee row = Some x ∧ (0 < x)%Q)).
Proof.
  intros Hs Hsn Hf Hfn Hinfo. split.
  - destruct (get_student_fee_summary_is_Some STUDENT_DETAILS STUDENT_FEES FEES_DATA
                student_id student fees Hs Hsn Hf Hfn) as [s Hsum].
    exists s. split; [done|].
    apply get_student_fee_summary_Some in Hsum
      as (student1 & fees1 & Hs1 & _ & Hf1 & _ & ->).
    simpl. by simplify_eq.
  - destruct (ParentPortal.get_student_fee_details df student_details student_fees
                default_fees student_id') as [d|] eqn:Hd.
    2:{ unfold ParentPortal.get_student_fee_details in Hd. by rewrite Hinfo in Hd. }
    exists d. split; [done|].
    apply get_student_fee_details_Some in Hd
      as (_ & _ & _ & _ & Han & Had & _ & Hdue & _).
    split; [done|]. rewrite Han, Had, !existsb_cell_positive.
    split; split.
    + intros (row & x & Hin & Hx & Hpos). exists row, x.
      by apply list_elem_of_filter in Hin as [? ?].
    + intros (row & x & Hin & Hid & Hx & Hpos). exists row, x.
      split; [by apply list_elem_of_filter|done].
    + intros (row & x & Hin & Hx & Hpos). exists row, x.
      by apply list_elem_of_filter in Hin as [? ?].
    + intros (row & x & Hin & Hid & Hx & Hpos). exists row, x.
      split; [by apply list_elem_of_filter|done].
Qed.

Lemma total_due_by_path_witness :
  ∃ s d,
    ParentDatabase.get_student_fee_summary (Some Scenario.STUDENT_DETAILS)
      (Some Scenario.STUDENT_FEES) (Some Scenario.ledger) "S1" = Some s ∧
    ParentDatabase.total_yearly_due s = 49500%Q ∧
    ParentPortal.get_student_fee_details (Scenario.annual_row :: Scenario.ledger)
      Scenario.student_details (Some Scenario.STUDENT_FEES) None "S1" = Some d ∧
    ParentPortal.annual_paid d = true ∧
    ParentPortal.total_due d = 46000%Q.
Proof.
  destruct (total_due_by_path (Some Scenario.STUDENT_DETAILS)
              (Some Scenario.STUDENT_FEES) (Some Scenario.ledger) "S1"
              {[ "name" := "Asha"; "class" := "Five" ]} Scenario.fee_schedule
              (Scenario.annual_row :: Scenario.ledger) Scenario.student_details
              (Some Scenario.STUDENT_FEES) None "S1"
              {[ "student_name" := "Asha"; "father_name" := "Imran";
                 "class_category" := "Five"; "phone" := "0300-0000000" ]})
    as [(s & Hs & Hm & Had & Han & Hdue) (d & Hd & Htotal & Hannual & _)];
    [reflexivity|by vm_compute|reflexivity|by vm_compute|reflexivity|].
  exists s, d. split; [exact Hs|]. split.
  { rewrite Hdue, Hm, Had, Han. reflexivity. }
  split; [exact Hd|].
  assert (Hpaid : ParentPortal.annual_paid d = true).
  { apply Hannual. exists Scenario.annual_row, 3500%Q.
    split_and!; [by left|reflexivity|reflexivity|reflexivity]. }
  split; [exact Hpaid|].
  rewrite Htotal, Hpaid. vm_compute in Hd. injection Hd as <-. reflexivity.
Defined.






End fee_summary.

(** ** The month resolver, on both calculation paths *)

Section months.
Import Ledger.

Implicit Types (FEES_DATA : option (list fee_row)) (rows df : list fee_row).

(** The labels [get_paid_months] reports are the [Month] cells of the
    student's rows with a monthly fee above zero, calendar month or not. *)
Lemma paid_months_of_rows_elem student_id rows paid m :
  ParentDatabase.paid_months_of_rows student_id rows = Some paid →
  m ∈ ParentDatabase.month <$> paid ↔
  ∃ row fee, row ∈ rows ∧ ID row = student_id ∧ Month row = m ∧
             Monthly_Fee row = Some fee ∧ (0 < fee)%Q.
Proof.
  revert paid. induction rows as [|row rows IH]; intros paid; simpl.
  { intros [= <-]. simpl. split; [by intros ?%elem_of_nil|].
    by intros (? & ? & ?%elem_of_nil & _). }
  destruct (decide (ID row = student_id)) as [Hid|Hid].
  - destruct (Monthly_Fee row) as [fee|] eqn:Hfee; [|done].
    destruct (ParentDatabase.paid_months_of_rows student_id rows) as [rest|]; [|done].
    simpl. intros [= <-]. specialize (IH rest eq_refl).
    destruct (Qpositive fee) eqn:Hpos.
    + rewrite fmap_cons, elem_of_cons, IH. simpl. split.
      * intros [->|(row' & fee' & Hin & ?)].
        -- exists row, fee. apply Qpositive_spec in Hpos.
           split_and!; [by left|done..].
        -- exists row', fee'. split; [by right|done].
      * intros (row' & fee' & [->|Hin]%elem_of_cons & Hid' & Hm & Hf & Hlt).
        -- by left.
        -- right. by exists row', fee'.
    + rewrite IH. split.
      * intros (row' & fee' & Hin & ?). exists row', fee'. split; [by right|done].
      * intros (row' & fee' & [->|Hin]%elem_of_cons & Hid' & Hm & Hf & Hlt).
        -- rewrite Hfee in Hf. injection Hf as <-.
           apply Qpositive_spec in Hlt. congruence.
        -- by exists row', fee'.
  - intros Hrest. rewrite (IH paid Hrest). split.
    + intros (row' & fee' & Hin & ?). exists row', fee'. split; [by right|done].
    + intros (row' & fee' & [->|Hin]%elem_of_cons & Hid' & ?); [done|].
      by exists row', fee'.
Qed.

(** [get_paid_months] returns as soon as every row of the student holds
    a number in its ["Monthly Fee"] cell. *)
Lemma get_paid_months_is_Some FEES_DATA student_id :
  (∀ rows row, FEES_DATA = Some rows → row ∈ rows → ID row = student_id →
               is_Some (Monthly_Fee row)) →
  is_Some (ParentDatabase.get_paid_months FEES_DATA student_id).
Proof.
  destruct FEES_DATA as [rows|]; simpl; [|by eexists].
  intros Hcells. specialize (Hcells rows).
  induction rows as [|row rows IH]; simpl; [by eexists|].
  destruct IH as [rest Hrest].
  { intros row' _ Hin. apply Hcells; [done|by right]. }
  destruct (decide (ID row = student_id)) as [Hid|Hid]; [|by eexists].
  destruct (Hcells row eq_refl) as [fee Hfee]; [by left|done|].
  rewrite Hfee, Hrest. by eexists.
Qed.

Lemma resolve_months_snoc student_records months m :
  ParentPortal.resolve_months student_records (months ++ [m])
  = match ParentPortal.month_records student_records m with
    | first :: _ =>
      ((ParentPortal.resolve_months student_records months).1 ++
       [{| ParentPortal.month := m;
           ParentPortal.paid_amount := default 0%Q (Monthly_Fee first);
           ParentPortal.date := Date first |}],
       (ParentPortal.resolve_months student_records months).2)
    | [] =>
      ((ParentPortal.resolve_months student_records months).1,
       (ParentPortal.resolve_months student_records months).2 ++ [m])
    end.
Proof. unfold ParentPortal.resolve_months. by rewrite foldl_app. Qed.

(** The loop sends each month of the calendar to exactly one list. *)
Lemma resolve_months_elem student_records months m :
  (m ∈ ParentPortal.month <$> (ParentPortal.resolve_months student_records months).1
   ↔ m ∈ months ∧ ParentPortal.month_records student_records m ≠ []) ∧
  (m ∈ (ParentPortal.resolve_months student_records months).2
   ↔ m ∈ months ∧ ParentPortal.month_records student_records m = []).
Proof.
  induction months as [|m' months [IHp IHu]] using rev_ind.
  { simpl. split; (split; [by intros ?%elem_of_nil|by intros [?%elem_of_nil _]]). }
  rewrite resolve_months_snoc.
  destruct (ParentPortal.month_records student_records m') as [|first rest] eqn:Hrec;
    simpl.
  - rewrite !elem_of_app, IHp, IHu, !list_elem_of_singleton. clear IHp IHu.
    destruct (decide (m = m')) as [->|Hne]; [rewrite !Hrec|]; intuition congruence.
  - rewrite fmap_app, !elem_of_app, IHp, IHu. simpl.
    rewrite !list_elem_of_singleton. clear IHp IHu.
    destruct (decide (m = m')) as [->|Hne]; [rewrite !Hrec|]; intuition congruence.
Qed.

(** Both paths use the same twelve months, in different orders. *)
Lemma calendars_agree :
  length ParentDatabase.all_months = 12%nat ∧
  NoDup ParentDatabase.all_months ∧
  length ParentPortal.all_months = 12%nat ∧
  NoDup ParentPortal.all_months ∧
  ∀ m, m ∈ ParentDatabase.all_months ↔ m ∈ ParentPortal.all_months.
Proof.
  split_and!; [done|by apply (bool_decide_unpack _)|done|by apply (bool_decide_unpack _)|].
  intros m. unfold ParentDatabase.all_months, ParentPortal.all_months.
  rewrite !elem_of_cons, !elem_of_nil. tauto.
Qed.

(** [get_paid_months] raises exactly when a row of the student holds no
    number in its ["Monthly Fee"] cell. *)
Lemma paid_months_of_rows_None student_id rows :
  ParentDatabase.paid_months_of_rows student_id rows = None ↔
  ∃ row, row ∈ rows ∧ ID row = student_id ∧ Monthly_Fee row = None.
Proof.
  induction rows as [|row rows IH]; simpl.
  { split; [done|]. by intros (? & ?%elem_of_nil & _). }
  destruct (decide (ID row = student_id)) as [Hid|Hid].
  - destruct (Monthly_Fee row) as [fee|] eqn:Hfee.
    + destruct (ParentDatabase.paid_months_of_rows student_id rows) as [rest|];
        simpl.
      * split; [done|].
        intros (row' & [->|Hin]%elem_of_cons & Hid' & Hnone); [congruence|].
        assert (Some rest = None) as Habsurd; [|done].
        apply IH. by exists row'.
      * split; [|done]. intros _.
        destruct (proj1 IH eq_refl) as (row' & Hin & ?).
        exists row'. split; [by right|done].
    + split; [|done]. intros _. exists row. split; [by left|done].
  - rewrite IH. split.
    + intros (row' & Hin & ?). exists row'. split; [by right|done].
    + intros (row' & [->|Hin]%elem_of_cons & Hid' & ?); [done|]. by exists row'.
Qed.

Lemma filter_complement_length (l paid : list string) :
  (length (filter (λ m, m ∈ paid) l) + length (filter (λ m, m ∉ paid) l))%nat
  = length l.
Proof.
  induction l as [|m l IH]; [done|].
  rewrite !filter_cons. destruct (decide (m ∈ paid)) as [Hin|Hout].
  - rewrite decide_False by (by intros ?). simpl. lia.
  - rewrite decide_True by done. simpl. lia.
Qed.

(** The loop sends every month to one of its two lists, once. *)
Lemma resolve_months_lists student_records months :
  NoDup months →
  (length (ParentPortal.resolve_months student_records months).1
   + length (ParentPortal.resolve_months student_records months).2)%nat
  = length months ∧
  NoDup (ParentPortal.month <$> (ParentPortal.resolve_months student_records months).1) ∧
  NoDup (ParentPortal.resolve_months student_records months).2.
Proof.
  induction months as [|m' months IH] using rev_ind; [by repeat constructor|].
  intros [Hnd [Hnotin _]]%NoDup_app. destruct (IH Hnd) as (Hlen & Hpaid & Hunpaid).
  rewrite resolve_months_snoc, length_app. simpl.
  assert (Hfresh : m' ∉ months).
  { intros Hin. by apply (Hnotin m'), list_elem_of_singleton. }
  destruct (ParentPortal.month_records student_records m'); simpl.
  - rewrite length_app. simpl. split_and!; [lia|done|].
    apply NoDup_app. split_and!; [done| |by apply NoDup_singleton].
    intros m Hm ->%list_elem_of_singleton.
    by apply (resolve_months_elem student_records months m') in Hm as [Hm _].
  - rewrite length_app, fmap_app. simpl. split_and!; [lia| |done].
    apply NoDup_app. split_and!; [done| |by apply NoDup_singleton].
    intros m Hm ->%list_elem_of_singleton.
    by apply (resolve_months_elem student_records months m') in Hm as [Hm _].
Qed.

(** C7, counterexample.  The ledger holds the APRIL and MAY rows of S1
    and the PARENT_PAYMENT row of a parent-portal payment.
    [get_paid_months] reports three paid labels, one of them outside the
    calendar, and [get_unpaid_months] ten months: the two lists do not
    partition the twelve months. *)
Lemma paid_months_leave_the_calendar :
  ∃ paid unpaid,
    ParentDatabase.get_paid_months (Some Scenario.ledger_with_parent_payment) "S1"
    = Some paid ∧
    ParentDatabase.month <$> paid = ["APRIL"; "MAY"; "PARENT_PAYMENT"] ∧
    ("PARENT_PAYMENT" ∉ ParentDatabase.all_months) ∧
    ParentDatabase.get_unpaid_months (Some Scenario.ledger_with_parent_payment) "S1"
    = Some unpaid ∧
    length unpaid = 10%nat ∧
    (length paid + length unpaid)%nat = 13%nat.
Proof.
  eexists _, _. split; [reflexivity|]. split; [reflexivity|].
  split; [by apply (bool_decide_unpack _)|].
  split; [reflexivity|]. split; reflexivity.
Qed.

(** C7, amended.  The loop of [get_student_fee_details] partitions the
    calendar exactly: its paid and unpaid lists hold calendar months
    only, none twice, every calendar month lies in exactly one of them,
    and together they have twelve entries, whatever labels the ledger
    holds.  [get_paid_months] and [get_unpaid_months] raise together,
    exactly when a row of the student holds no number in its monthly fee
    cell.  When they return, the unpaid list holds calendar months only,
    none twice, and every calendar month lies in exactly one of the paid
    labels and the unpaid list, so the calendar months that are paid and
    the unpaid months count twelve; the paid list itself is not confined
    to the calendar. *)
Theorem months_partition FEES_DATA student_id
    df student_details student_fees default_fees student_id' d :
  ParentPortal.get_student_fee_details df student_details student_fees default_fees
    student_id' = Some d →
  ((ParentDatabase.get_paid_months FEES_DATA student_id = None ↔
    ∃ rows row, FEES_DATA = Some rows ∧ row ∈ rows ∧ ID row = student_id ∧
                Monthly_Fee row = None) ∧
   (ParentDatabase.get_unpaid_months FEES_DATA student_id = None ↔
    ParentDatabase.get_paid_months FEES_DATA student_id = None) ∧
   ∀ paid,
     ParentDatabase.get_paid_months FEES_DATA student_id = Some paid →
     ∃ unpaid,
       ParentDatabase.get_unpaid_months FEES_DATA student_id = Some unpaid ∧
       (∀ m, m ∈ ParentDatabase.all_months →
             (m ∈ (ParentDatabase.month <$> paid) ∧ m ∉ unpaid) ∨
             ((m ∉ (ParentDatabase.month <$> paid)) ∧ m ∈ unpaid)) ∧
       (∀ m, m ∈ unpaid → m ∈ ParentDatabase.all_months) ∧
       NoDup unpaid ∧
       (length (filter (λ m, m ∈ (ParentDatabase.month <$> paid))
                  ParentDatabase.all_months)
        + length unpaid)%nat = 12%nat) ∧
  ((∀ m, m ∈ ParentPortal.all_months →
         (m ∈ (ParentPortal.month <$> ParentPortal.paid_months d) ∧
          m ∉ ParentPortal.unpaid_months d) ∨
         ((m ∉ (ParentPortal.month <$> ParentPortal.paid_months d)) ∧
          m ∈ ParentPortal.unpaid_months d)) ∧
   (∀ m, m ∈ (ParentPortal.month <$> ParentPortal.paid_months d) ∨
         m ∈ ParentPortal.unpaid_months d →
         m ∈ ParentPortal.all_months) ∧
   NoDup (ParentPortal.month <$> ParentPortal.paid_months d) ∧
   NoDup (ParentPortal.unpaid_months d) ∧
   (length (ParentPortal.paid_months d) + length (ParentPortal.unpaid_months d))%nat
   = 12%nat).
Proof.
  intros Hd. split.
  - split_and!.
    + destruct FEES_DATA as [rows|]; simpl.
      * rewrite paid_months_of_rows_None. split.
        -- intros (row & ?). by exists rows, row.
        -- intros (rows' & row & [= <-] & ?). by exists row.
      * split; [done|]. by intros (? & ? & ? & _).
    + unfold ParentDatabase.get_unpaid_months.
      by destruct (ParentDatabase.get_paid_months FEES_DATA student_id).
    + intros paid Hpaid.
      unfold ParentDatabase.get_unpaid_months. rewrite Hpaid.
      eexists. split; [done|]. split_and!.
      * intros m Hm.
        destruct (decide (m ∈ (ParentDatabase.month <$> paid))) as [Hin|Hout].
        -- left. split; [done|]. by intros [? _]%list_elem_of_filter.
        -- right. split; [done|]. by apply list_elem_of_filter.
      * by intros m [_ ?]%list_elem_of_filter.
      * apply NoDup_filter, calendars_agree.
      * by rewrite filter_complement_length.
  - apply get_student_fee_details_Some in Hd
      as (_ & _ & _ & _ & _ & _ & _ & _ & _ & _ & Hmonths).
    set (records := filter (λ row, ID row = student_id') df) in Hmonths.
    assert (Hp : ParentPortal.paid_months d
                 = (ParentPortal.resolve_months records ParentPortal.all_months).1)
      by by rewrite <- Hmonths.
    assert (Hu : ParentPortal.unpaid_months d
                 = (ParentPortal.resolve_months records ParentPortal.all_months).2)
      by by rewrite <- Hmonths.
    rewrite Hp, Hu.
    destruct (resolve_months_lists records ParentPortal.all_months)
      as (Hlen & Hpaid & Hunpaid); [apply calendars_agree|].
    split_and!; [| |done|done|done].
    + intros m Hm.
      destruct (resolve_months_elem records ParentPortal.all_months m) as [Hpe Hue].
      rewrite Hpe, Hue.
      destruct (ParentPortal.month_records records m) as [|first rest].
      * right. split; [|done]. by intros [_ ?].
      * left. split; [done|]. by intros [_ ?].
    + intros m.
      destruct (resolve_months_elem records ParentPortal.all_months m) as [Hpe Hue].
      rewrite Hpe, Hue. by intros [[? _]|[? _]].
Qed.

(** The ledger of the witness holds the PARENT_PAYMENT row: its label is
    reported as paid by [get_paid_months] and ignored by
    [get_student_fee_details]. *)
Lemma months_partition_witness :
  ∃ paid unpaid d,
    ParentDatabase.get_paid_months (Some Scenario.ledger_with_parent_payment) "S1"
    = Some paid ∧
    ParentDatabase.month <$> paid = ["APRIL"; "MAY"; "PARENT_PAYMENT"] ∧
    ParentDatabase.get_unpaid_months (Some Scenario.ledger_with_parent_payment) "S1"
    = Some unpaid ∧
    (("APRIL" ∈ (ParentDatabase.month <$> paid) ∧ ("APRIL" ∉ unpaid)) ∨
     (("APRIL" ∉ (ParentDatabase.month <$> paid)) ∧ "APRIL" ∈ unpaid)) ∧
    ParentPortal.get_student_fee_details Scenario.ledger_with_parent_payment
      Scenario.student_details (Some Scenario.STUDENT_FEES) None "S1" = Some d ∧
    ParentPortal.month <$> ParentPortal.paid_months d = ["APRIL"; "MAY"] ∧
    (length (ParentPortal.paid_months d)
     + length (ParentPortal.unpaid_months d))%nat = 12%nat.
Proof.
  destruct (ParentDatabase.get_paid_months
              (Some Scenario.ledger_with_parent_payment) "S1")
    as [paid|] eqn:Hpaid; [|by vm_compute in Hpaid].
  destruct (ParentPortal.get_student_fee_details Scenario.ledger_with_parent_payment
              Scenario.student_details (Some Scenario.STUDENT_FEES) None "S1")
    as [d|] eqn:Hd; [|by vm_compute in Hd].
  destruct (months_partition (Some Scenario.ledger_with_parent_payment) "S1"
              _ _ _ _ _ d Hd)
    as [(_ & _ & Hdb) (_ & _ & _ & _ & Hlen)].
  destruct (Hdb paid Hpaid) as (unpaid & Hunpaid & Hpart & _).
  exists paid, unpaid, d.
  pose proof Hpaid as Ep. vm_compute in Ep. injection Ep as Ep.
  pose proof Hd as Ed. vm_compute in Ed. injection Ed as Ed.
  split; [reflexivity|]. split; [by rewrite <- Ep|]. split; [exact Hunpaid|].
  split; [apply Hpart; by apply (bool_decide_unpack _)|].
  split; [reflexivity|]. split; [by rewrite <- Ed|].
  exact Hlen.
Defined.

End months.

(** ** Duplicate transaction ids *)

Section duplicates.
Import PaymentNotifications.

(** C9.  Two parents submitted TXN1, for students S1 and S2.  The
    [break] of the verify loop leaves the scan of one student's list
    only: one verify call marks the first match of every student, so
    both requests become verified. *)
Example verify_duplicate_across_students :
  file_statuses Scenario.history_two_students
  = [["pending_verification"]; ["pending_verification"]] ∧
  (verify_parent_payment "2024-05-02 09:00:00" None
     Scenario.history_two_students Scenario.txn1_pending).1 = true ∧
  file_statuses
    (verify_parent_payment "2024-05-02 09:00:00" None
       Scenario.history_two_students Scenario.txn1_pending).2
  = [["verified"]; ["verified"]].
Proof. split_and!; reflexivity. Qed.

(** Within one student's list the tie-break is the one the
    specification asks for: of several records with the transaction id,
    only the first in list order is rewritten. *)
Theorem verify_first_match_per_student tid now user payments k sid sp :
  payments !! k = Some (sid, sp) →
  ∃ sp',
    verify_payments tid now user payments !! k = Some (sid, sp') ∧
    length sp' = length sp ∧
    match list_find (λ payment, transaction_id payment = tid) sp with
    | Some (i, p) =>
      sp' = <[i := mark_verified now user p]> sp ∧
      ∀ j q, j < i → sp !! j = Some q → transaction_id q ≠ tid
    | None => sp' = sp
    end.
Proof.
  intros Hk. exists (verify_student_payments tid now user sp).
  split; [by apply verify_payments_lookup|].
  unfold verify_student_payments.
  destruct (list_find _ sp) as [[i p]|] eqn:Hfind; [|done].
  apply list_find_Some in Hfind as (Hi & Hp & Hleast).
  split; [by rewrite length_alter|].
  split; [|intros j q Hlt Hj; exact (Hleast j q Hj Hlt)].
  apply list_eq. intros j. rewrite list_lookup_alter.
  destruct (decide (i = j)) as [<-|Hne].
  - rewrite list_lookup_insert_eq by by eapply lookup_lt_Some. by rewrite Hi.
  - by rewrite list_lookup_insert_ne.
Qed.

Lemma verify_first_match_per_student_witness :
  ∃ sp',
    verify_payments (Some "TXN1") "2024-05-02 09:00:00" "Admin"
      [("S1", [Scenario.txn2_pending; Scenario.txn1_pending; Scenario.txn1_pending])]
      !! 0%nat = Some ("S1", sp') ∧
    status <$> sp' = ["pending_verification"; "verified"; "pending_verification"].
Proof.
  destruct (verify_first_match_per_student (Some "TXN1") "2024-05-02 09:00:00" "Admin"
              [("S1", [Scenario.txn2_pending; Scenario.txn1_pending;
                       Scenario.txn1_pending])] 0%nat "S1"
              [Scenario.txn2_pending; Scenario.txn1_pending; Scenario.txn1_pending]
              eq_refl) as (sp' & Hk & _ & Hsp).
  exists sp'. split; [exact Hk|].
  vm_compute in Hsp. destruct Hsp as [-> _]. reflexivity.
Defined.

End duplicates.

(** ** Further properties of the core *)

Section further.
Import Ledger PaymentNotifications.

(** Rejecting stamps the first matching record of a student's list with
    status rejected, the rejecting user, the clock reading and a
    non-empty reason, and keeps its transaction id. *)
Theorem reject_stamps_reason tid now user payments k sid sp i p :
  payments !! k = Some (sid, sp) →
  list_find (λ payment, transaction_id payment = tid) sp = Some (i, p) →
  ∃ sp' p',
    reject_payments tid now user payments !! k = Some (sid, sp') ∧
    sp' !! i = Some p' ∧
    status p' = "rejected" ∧
    rejection_reason p' = Some "Manual rejection by admin" ∧
    rejection_reason p' ≠ Some "" ∧
    rejected_at p' = Some now ∧ rejected_by p' = Some user ∧
    transaction_id p' = tid ∧
    ∀ j, j ≠ i → sp' !! j = sp !! j.
Proof.
  intros Hk Hfind.
  exists (reject_student_payments tid now user sp), (mark_rejected now user p).
  split; [by apply reject_payments_lookup|].
  unfold reject_student_payments. rewrite Hfind.
  apply list_find_Some in Hfind as (Hi & Hp & _).
  split_and!; try done.
  - by rewrite list_lookup_alter_eq, Hi.
  - intros j Hj. by rewrite list_lookup_alter_ne.
Qed.

Lemma reject_stamps_reason_witness :
  ∃ sp' p',
    reject_payments (Some "TXN1") "2024-05-03 09:00:00" "Admin"
      [("S1", [Scenario.txn2_pending; Scenario.txn1_pending])] !! 0%nat
    = Some ("S1", sp') ∧
    sp' !! 1%nat = Some p' ∧
    status p' = "rejected" ∧
    rejection_reason p' = Some "Manual rejection by admin" ∧
    rejection_reason p' ≠ Some "" ∧
    rejected_at p' = Some "2024-05-03 09:00:00" ∧ rejected_by p' = Some "Admin" ∧
    transaction_id p' = Some "TXN1" ∧
    ∀ j, j ≠ 1%nat → sp' !! j = [Scenario.txn2_pending; Scenario.txn1_pending] !! j.
Proof.
  apply (reject_stamps_reason (Some "TXN1") "2024-05-03 09:00:00" "Admin"
           [("S1", [Scenario.txn2_pending; Scenario.txn1_pending])] 0%nat "S1"
           [Scenario.txn2_pending; Scenario.txn1_pending] 1%nat Scenario.txn1_pending);
    reflexivity.
Defined.

(** A label is reported as paid by [get_paid_months] exactly when some
    ledger row of the student carries it with a monthly fee above zero;
    a missing ledger file reports nothing as paid. *)
Theorem paid_label_iff_positive_row FEES_DATA student_id paid m :
  ParentDatabase.get_paid_months FEES_DATA student_id = Some paid →
  m ∈ (ParentDatabase.month <$> paid) ↔
  ∃ rows row fee, FEES_DATA = Some rows ∧ row ∈ rows ∧ ID row = student_id ∧
                  Month row = m ∧ Monthly_Fee row = Some fee ∧ (0 < fee)%Q.
Proof.
  destruct FEES_DATA as [rows|]; simpl.
  - intros Hpaid. rewrite (paid_months_of_rows_elem student_id rows paid m Hpaid).
    split.
    + intros (row & fee & ?). by exists rows, row, fee.
    + intros (rows' & row & fee & [= <-] & ?). by exists row, fee.
  - intros [= <-]. simpl. split; [by intros ?%elem_of_nil|].
    by intros (? & ? & ? & ? & _).
Qed.

Lemma paid_label_iff_positive_row_witness :
  ∃ paid,
    ParentDatabase.get_paid_months (Some Scenario.ledger_with_parent_payment) "S1"
    = Some paid ∧
    "PARENT_PAYMENT" ∈ (ParentDatabase.month <$> paid).
Proof.
  destruct (ParentDatabase.get_paid_months
              (Some Scenario.ledger_with_parent_payment) "S1")
    as [paid|] eqn:Hpaid; [|by vm_compute in Hpaid].
  exists paid. split; [reflexivity|].
  apply (paid_label_iff_positive_row _ _ paid "PARENT_PAYMENT" Hpaid).
  exists Scenario.ledger_with_parent_payment,
    (payment_record "S1" 3000 "JazzCash" "2024-06-02"), 3000%Q.
  split_and!; try reflexivity.
  unfold Scenario.ledger_with_parent_payment. apply elem_of_app. right. by left.
Defined.

End further.

(** ** Sorting *)

Section sorting.
Context {A : Type} (key : A → string).

Lemma ltb_leb (s1 s2 : string) : String.ltb s1 s2 = true → String.leb s1 s2 = true.
Proof. unfold String.ltb, String.leb. by destruct (String.compare s1 s2). Qed.

Lemma not_ltb_leb (s1 s2 : string) : String.ltb s1 s2 = false → String.leb s2 s1 = true.
Proof.
  unfold String.ltb, String.leb. rewrite (String.compare_antisym s1 s2).
  by destruct (String.compare s2 s1).
Qed.

Lemma ltb_irrefl (s : string) : String.ltb s s = false.
Proof.
  unfold String.ltb. destruct (String.compare s s) eqn:Hc; [done| |done].
  pose proof (String.compare_antisym s s) as Ha. rewrite Hc in Ha. done.
Qed.

Lemma insert_desc_perm x l : insert_desc key x l ≡ₚ x :: l.
Proof.
  induction l as [|y l IH]; simpl; [done|].
  destruct (String.ltb (key x) (key y)); [|done].
  rewrite IH. apply Permutation_swap.
Qed.

Lemma sorted_desc_perm l : sorted_desc key l ≡ₚ l.
Proof.
  induction l as [|x l IH]; simpl; [done|].
  unfold sorted_desc in *. simpl. by rewrite insert_desc_perm, IH.
Qed.

Lemma insert_desc_sorted x l :
  Sorted (descending key) l → Sorted (descending key) (insert_desc key x l).
Proof.
  induction 1 as [|y l Hsorted IH Hhd]; simpl; [by repeat constructor|].
  destruct (String.ltb (key x) (key y)) eqn:Hlt.
  - constructor; [done|].
    destruct Hhd as [|z l Hyz]; simpl.
    + constructor. by apply ltb_leb.
    + destruct (String.ltb (key x) (key z)); constructor; [done|].
      by apply ltb_leb.
  - constructor; [by constructor|]. constructor. by apply not_ltb_leb.
Qed.

Lemma sorted_desc_sorted l : Sorted (descending key) (sorted_desc key l).
Proof.
  induction l as [|x l IH]; [constructor|].
  unfold sorted_desc in *. simpl. by apply insert_desc_sorted.
Qed.

(** Stability: the records of one key keep their input order. *)
Lemma insert_desc_stable k x l :
  filter (λ y, key y = k) (insert_desc key x l) = filter (λ y, key y = k) (x :: l).
Proof.
  induction l as [|y l IH]; simpl; [done|].
  destruct (String.ltb (key x) (key y)) eqn:Hlt; [|done].
  rewrite !filter_cons, IH, !filter_cons.
  destruct (decide (key y = k)) as [Hy|Hy], (decide (key x = k)) as [Hx|Hx]; try done.
  rewrite Hx, <- Hy, ltb_irrefl in Hlt. done.
Qed.

Lemma sorted_desc_stable k l :
  filter (λ y, key y = k) (sorted_desc key l) = filter (λ y, key y = k) l.
Proof.
  induction l as [|x l IH]; [done|].
  unfold sorted_desc in *. simpl.
  by rewrite insert_desc_stable, !filter_cons, IH.
Qed.

End sorting.

(** ** The admin notification list and the statistics *)

Section notifications.
Import PaymentNotifications.

Implicit Types (p : payment) (sp : list payment) (payments : store).
Implicit Types (file : json_file store).

Local Abbreviation pending_verification :=
  (λ p : payment, status p = "pending_verification") (only parsing).
Local Abbreviation verified := (λ p : payment, status p = "verified") (only parsing).
Local Abbreviation rejected := (λ p : payment, status p = "rejected") (only parsing).

Lemma elem_of_all_payments p payments :
  p ∈ all_payments payments ↔ ∃ entry, entry ∈ payments ∧ p ∈ entry.2.
Proof.
  unfold all_payments. rewrite list_elem_of_join. split.
  - intros (sp & Hp & Hsp). apply list_elem_of_fmap in Hsp as (entry & -> & ?).
    by exists entry.
  - intros (entry & Hentry & Hp). exists entry.2. split; [done|].
    apply list_elem_of_fmap. by exists entry.
Qed.

(** The admin's list holds exactly the records awaiting verification,
    newest payment date first, records of one date in store order; a
    missing or unparseable store gives the empty list. *)
Theorem pending_payments_listing payments :
  let pending := get_pending_parent_payments (Parsed payments) in
  pending ≡ₚ filter pending_verification (all_payments payments) ∧
  Sorted (descending payment_date) pending ∧
  (∀ d, filter (λ p, payment_date p = d) pending
        = filter (λ p, payment_date p = d)
            (filter pending_verification (all_payments payments))) ∧
  (∀ p, p ∈ pending ↔
        status p = "pending_verification" ∧
        ∃ entry, entry ∈ payments ∧ p ∈ entry.2) ∧
  get_pending_parent_payments Missing = [] ∧
  get_pending_parent_payments Unparseable = [].
Proof.
  simpl. split_and!; [apply sorted_desc_perm|apply sorted_desc_sorted| | |done|done].
  - intros d. apply sorted_desc_stable.
  - intros p. rewrite sorted_desc_perm, list_elem_of_filter, elem_of_all_payments.
    done.
Qed.

(** The statistics loop, from any running totals. *)
Lemma foldl_count_payment (l : list payment) (stats : payment_stats) :
  let result := foldl count_payment stats l in
  total_pending result
  = (total_pending stats + length (filter pending_verification l))%nat ∧
  total_verified result
  = (total_verified stats + length (filter verified l))%nat ∧
  total_rejected result
  = (total_rejected stats + length (filter rejected l))%nat ∧
  pending_amount result
  = foldl (λ total p, (total + Q2F (amount p))%float) (pending_amount stats)
      (filter pending_verification l) ∧
  verified_amount result
  = foldl (λ total p, (total + Q2F (amount p))%float) (verified_amount stats)
      (filter verified l).
Proof.
  revert stats. induction l as [|p l IH]; intros stats.
  { simpl. split_and!; try done; lia. }
  cbv zeta. simpl foldl.
  destruct (IH (count_payment stats p)) as (Hp & Hv & Hr & Hpa & Hva).
  rewrite Hp, Hv, Hr, Hpa, Hva. clear IH Hp Hv Hr Hpa Hva.
  rewrite !filter_cons. unfold count_payment.
  repeat case_decide; try congruence;
    cbn [pending_amount verified_amount total_pending total_verified
         total_rejected length foldl];
    (split_and!; try done; lia).
Qed.

Lemma filter_lengths_bounded (l : list payment) :
  (length (filter pending_verification l)
   + length (filter verified l)
   + length (filter rejected l) ≤ length l)%nat ∧
  (Forall (λ p, known_status (status p)) l →
   (length (filter pending_verification l)
    + length (filter verified l)
    + length (filter rejected l))%nat = length l).
Proof.
  induction l as [|p l [IHle IHeq]]; [done|].
  rewrite !filter_cons. split.
  - repeat case_decide; simpl; try congruence; lia.
  - intros [Hp Hl]%Forall_cons. specialize (IHeq Hl).
    destruct Hp as [Hp|[Hp|Hp]];
      repeat case_decide; simpl; try congruence; lia.
Qed.

(** The statistics are those of the lists: the pending count is the
    length of the admin's pending list, the verified and rejected counts
    those of the records with that status; a record with any other
    status is counted nowhere.  The pending amount is the running
    binary64 total of the pending records' amounts, taken in store order
    (not in the order of the pending list), and the verified amount that
    of the verified records; no other record's amount enters either. *)
Theorem stats_agree_with_listing file :
  let stats := get_payment_stats file in
  total_pending stats = length (get_pending_parent_payments file) ∧
  total_verified stats = length (filter verified (file_payments file)) ∧
  total_rejected stats = length (filter rejected (file_payments file)) ∧
  (total_pending stats + total_verified stats + total_rejected stats
   ≤ length (file_payments file))%nat ∧
  (Forall (λ p, known_status (status p)) (file_payments file) →
   (total_pending stats + total_verified stats + total_rejected stats)%nat
   = length (file_payments file)) ∧
  pending_amount stats
  = foldl (λ total p, (total + Q2F (amount p))%float) 0%float
      (filter pending_verification (file_payments file)) ∧
  verified_amount stats
  = foldl (λ total p, (total + Q2F (amount p))%float) 0%float
      (filter verified (file_payments file)).
Proof.
  destruct file as [| |payments]; [done..|].
  destruct (foldl_count_payment (all_payments payments) no_stats)
    as (Hp & Hv & Hr & Hpa & Hva).
  destruct (filter_lengths_bounded (all_payments payments)) as [Hle Heq].
  pose proof (sorted_desc_perm payment_date
                (filter pending_verification (all_payments payments))) as Hsorted.
  cbv zeta in *.
  cbn [get_payment_stats get_pending_parent_payments file_payments] in *.
  rewrite Hp, Hv, Hr, Hpa, Hva.
  cbn [no_stats total_pending total_verified total_rejected pending_amount
       verified_amount Nat.add].
  split_and!; try done.
  by rewrite (Permutation_length Hsorted).
Qed.

(** What one admin action does to the records, place by place. *)
Lemma verify_student_payments_records tid now user sp :
  Forall2 (λ p p', p' = p ∨ p' = mark_verified now user p)
    sp (verify_student_payments tid now user sp).
Proof.
  unfold verify_student_payments.
  destruct (list_find _ sp) as [[i q]|].
  - apply Forall2_alter_r.
    + apply Forall_Forall2_diag, Forall_forall. by left.
    + intros x y Hx Hy _. right. congruence.
  - apply Forall_Forall2_diag, Forall_forall. by left.
Qed.

Lemma reject_student_payments_records tid now user sp :
  Forall2 (λ p p', p' = p ∨ p' = mark_rejected now user p)
    sp (reject_student_payments tid now user sp).
Proof.
  unfold reject_student_payments.
  destruct (list_find _ sp) as [[i q]|].
  - apply Forall2_alter_r.
    + apply Forall_Forall2_diag, Forall_forall. by left.
    + intros x y Hx Hy _. right. congruence.
  - apply Forall_Forall2_diag, Forall_forall. by left.
Qed.

Lemma verify_payments_records tid now user payments :
  (verify_payments tid now user payments).*1 = payments.*1 ∧
  Forall2 (λ p p', p' = p ∨ p' = mark_verified now user p)
    (all_payments payments) (all_payments (verify_payments tid now user payments)).
Proof.
  unfold verify_payments, all_payments. split.
  - rewrite <- list_fmap_compose. by apply list_fmap_ext.
  - induction payments as [|[sid sp] payments IH]; simpl; [constructor|].
    apply Forall2_app; [apply verify_student_payments_records|apply IH].
Qed.

Lemma reject_payments_records tid now user payments :
  (reject_payments tid now user payments).*1 = payments.*1 ∧
  Forall2 (λ p p', p' = p ∨ p' = mark_rejected now user p)
    (all_payments payments) (all_payments (reject_payments tid now user payments)).
Proof.
  unfold reject_payments, all_payments. split.
  - rewrite <- list_fmap_compose. by apply list_fmap_ext.
  - induction payments as [|[sid sp] payments IH]; simpl; [constructor|].
    apply Forall2_app; [apply reject_student_payments_records|apply IH].
Qed.

(** Records related place by place: a property lost by no step is
    counted at most as often after as before. *)
Lemma filter_length_Forall2 (R : payment → payment → Prop)
    (P Q : payment → Prop) `{∀ p, Decision (P p)} `{∀ p, Decision (Q p)}
    (l l' : list payment) :
  Forall2 R l l' → (∀ p p', R p p' → Q p' → P p) →
  (length (filter Q l') ≤ length (filter P l))%nat.
Proof.
  intros Hrel Hstep. induction Hrel as [|p p' l l' Hpp' _ IH]; [done|].
  rewrite !filter_cons. specialize (Hstep p p' Hpp').
  repeat case_decide; simpl; try lia. tauto.
Qed.

Lemma stats_counts payments :
  total_pending (get_payment_stats (Parsed payments))
  = length (filter pending_verification (all_payments payments)) ∧
  total_verified (get_payment_stats (Parsed payments))
  = length (filter verified (all_payments payments)) ∧
  total_rejected (get_payment_stats (Parsed payments))
  = length (filter rejected (all_payments payments)).
Proof.
  destruct (foldl_count_payment (all_payments payments) no_stats)
    as (Hp & Hv & Hr & _). simpl in *. by rewrite Hp, Hv, Hr.
Qed.

(** An admin action keeps the students and the number of records.  It
    never adds to the pending count; verifying never lowers the verified
    count nor raises the rejected count, and rejecting the other way
    round. *)
Theorem admin_action_moves_counts op payments :
  let before := get_payment_stats (Parsed payments) in
  let after_file := (run_op op (Parsed payments)).2 in
  let after := get_payment_stats after_file in
  file_keys after_file = payments.*1 ∧
  length (file_payments after_file) = length (all_payments payments) ∧
  (total_pending after ≤ total_pending before)%nat ∧
  match op with
  | Verify _ _ _ =>
    (total_verified before ≤ total_verified after)%nat ∧
    (total_rejected after ≤ total_rejected before)%nat
  | Reject _ _ _ =>
    (total_rejected before ≤ total_rejected after)%nat ∧
    (total_verified after ≤ total_verified before)%nat
  end.
Proof.
  destruct op as [now cu pd|now cu pd]; cbv zeta;
    unfold run_op, verify_parent_payment, reject_parent_payment, file_keys;
    cbn [snd file_entries file_payments].
  - destruct (verify_payments_records (transaction_id pd) now (default "Admin" cu)
                payments) as [Hkeys Hrel].
    destruct (stats_counts payments) as (-> & -> & ->).
    destruct (stats_counts (verify_payments (transaction_id pd) now
                              (default "Admin" cu) payments)) as (-> & -> & ->).
    split_and!; [done|by rewrite (Forall2_length _ _ _ Hrel)|..].
    + apply (filter_length_Forall2 _ _ _ _ _ Hrel). by intros p p' [->| ->].
    + apply Forall2_flip in Hrel.
      apply (filter_length_Forall2 _ _ _ _ _ Hrel). by intros p' p [->| ->].
    + apply (filter_length_Forall2 _ _ _ _ _ Hrel). by intros p p' [->| ->].
  - destruct (reject_payments_records (transaction_id pd) now (default "Admin" cu)
                payments) as [Hkeys Hrel].
    destruct (stats_counts payments) as (-> & -> & ->).
    destruct (stats_counts (reject_payments (transaction_id pd) now
                              (default "Admin" cu) payments)) as (-> & -> & ->).
    split_and!; [done|by rewrite (Forall2_length _ _ _ Hrel)|..].
    + apply (filter_length_Forall2 _ _ _ _ _ Hrel). by intros p p' [->| ->].
    + apply Forall2_flip in Hrel.
      apply (filter_length_Forall2 _ _ _ _ _ Hrel). by intros p' p [->| ->].
    + apply (filter_length_Forall2 _ _ _ _ _ Hrel). by intros p p' [->| ->].
Qed.

(** *** Submissions *)

Lemma dict_setdefault_nil_spec (student_id : string) payments :
  all_payments (dict_setdefault_nil student_id payments) = all_payments payments ∧
  student_id ∈ (dict_setdefault_nil student_id payments).*1 ∧
  (NoDup payments.*1 → NoDup (dict_setdefault_nil student_id payments).*1) ∧
  (∀ tid, no_match tid payments →
          no_match tid (dict_setdefault_nil student_id payments)).
Proof.
  unfold dict_setdefault_nil, all_payments, no_match.
  destruct (decide (student_id ∈ payments.*1)) as [Hin|Hout]; [done|].
  rewrite !fmap_app, join_app. simpl. rewrite !app_nil_r. split_and!.
  - done.
  - apply elem_of_app. right. by left.
  - intros Hnd. apply NoDup_app. split_and!; [done| |apply NoDup_singleton].
    intros k Hk ->%list_elem_of_singleton. done.
  - intros tid Hno. apply Forall_app. split; [done|]. by repeat constructor.
Qed.

Lemma dict_append_keys (student_id : string) (x : payment) payments :
  (dict_append student_id x payments).*1 = payments.*1.
Proof.
  unfold dict_append. rewrite <- list_fmap_compose. apply list_fmap_ext.
  intros _ [k l] _. simpl. by destruct (decide (k = student_id)).
Qed.

Lemma dict_append_absent (student_id : string) (x : payment) payments :
  student_id ∉ payments.*1 → dict_append student_id x payments = payments.
Proof.
  intros Hout. unfold dict_append. rewrite <- (list_fmap_id payments) at 2.
  apply list_fmap_ext. intros i [k l] Hi. simpl.
  destruct (decide (k = student_id)) as [->|]; [|done].
  destruct Hout. apply list_elem_of_fmap. exists (student_id, l).
  split; [done|]. by eapply list_elem_of_lookup_2.
Qed.

(** With unique student keys a submission adds exactly one record. *)
Lemma all_payments_dict_append (student_id : string) (x : payment) payments :
  NoDup payments.*1 → student_id ∈ payments.*1 →
  all_payments (dict_append student_id x payments) ≡ₚ x :: all_payments payments.
Proof.
  unfold all_payments.
  induction payments as [|[k l] payments IH]; simpl; [by intros _ ?%elem_of_nil|].
  intros [Hk Hnd]%NoDup_cons Hin.
  destruct (decide (k = student_id)) as [->|Hne]; simpl.
  - fold (dict_append student_id x payments).
    rewrite (dict_append_absent student_id x payments Hk).
    rewrite <- app_assoc. symmetry. apply (Permutation_middle l _ x).
  - fold (dict_append student_id x payments).
    apply elem_of_cons in Hin as [?|Hin]; [done|].
    rewrite (IH Hnd Hin). symmetry. apply (Permutation_middle l _ x).
Qed.

Lemma stats_after_new_record payments payments' (x : payment) :
  all_payments payments' ≡ₚ x :: all_payments payments →
  status x = "pending_verification" →
  total_pending (get_payment_stats (Parsed payments'))
  = S (total_pending (get_payment_stats (Parsed payments))).
Proof.
  intros Hperm Hx.
  destruct (foldl_count_payment (all_payments payments') no_stats)
    as (Hp' & _).
  destruct (foldl_count_payment (all_payments payments) no_stats)
    as (Hp & _).
  assert (Hfilter : filter pending_verification (all_payments payments')
                    ≡ₚ x :: filter pending_verification (all_payments payments)).
  { rewrite Hperm, filter_cons. by rewrite decide_True. }
  simpl in *. rewrite Hp', Hp. by rewrite (Permutation_length Hfilter).
Qed.

Lemma elem_of_get_pending p file :
  p ∈ get_pending_parent_payments file ↔
  status p = "pending_verification" ∧ p ∈ file_payments file.
Proof.
  destruct file as [| |payments]; simpl.
  1,2: split; [by intros ?%elem_of_nil|by intros [_ ?%elem_of_nil]].
  by rewrite sorted_desc_perm, list_elem_of_filter.
Qed.

(** A parent payment whose ledger row was saved is reported as a
    success.  When the history file parses or is missing and its student
    keys are unique, exactly one record is added: it awaits
    verification, shows in the admin's pending list, and raises the
    pending count by one.  When the history file does not parse the call
    still answers [True], and no tracking record is written. *)
Theorem submission_awaits_verification now file sid name amt method tid :
  NoDup (file_keys file) →
  let result := handle_parent_payment true now file sid name amt method tid in
  let new := new_payment_data sid name amt method tid now in
  result.1 = true ∧
  (file = Unparseable → result.2 = Unparseable) ∧
  (file ≠ Unparseable →
   NoDup (file_keys result.2) ∧
   file_payments result.2 ≡ₚ new :: file_payments file ∧
   new ∈ get_pending_parent_payments result.2 ∧
   total_pending (get_payment_stats result.2)
   = S (total_pending (get_payment_stats file))).
Proof.
  intros Hnd result new. split; [done|]. split; [by intros ->|].
  intros Hfile.
  set (payments := file_entries file).
  assert (Hresult : result.2
                    = Parsed (dict_append sid new (dict_setdefault_nil sid payments))).
  { subst result payments. by destruct file. }
  assert (Hold : file_payments file = all_payments payments).
  { subst payments. by destruct file. }
  assert (Hstats : get_payment_stats file = get_payment_stats (Parsed payments)).
  { subst payments. by destruct file. }
  destruct (dict_setdefault_nil_spec sid payments) as (Hall & Hin & Hkeys & _).
  assert (Hperm : all_payments (dict_append sid new (dict_setdefault_nil sid payments))
                  ≡ₚ new :: all_payments payments).
  { rewrite <- Hall. apply all_payments_dict_append; [by apply Hkeys|done]. }
  rewrite Hresult, Hold, Hstats. simpl file_payments.
  split_and!.
  - unfold file_keys. simpl. rewrite dict_append_keys. by apply Hkeys.
  - done.
  - apply elem_of_get_pending. split; [done|]. simpl. rewrite Hperm. by left.
  - by apply (stats_after_new_record _ _ new Hperm).
Qed.

Lemma submission_awaits_verification_witness :
  ∃ file',
    (handle_parent_payment true "2024-05-04 08:30:00"
       (Parsed [("S1", [Scenario.txn1_verified])])
       "S1" "Asha" 3500 "Bank Transfer" "TXN2").2 = file' ∧
    get_pending_parent_payments file' = [Scenario.txn2_pending] ∧
    total_pending (get_payment_stats file') = 1%nat.
Proof.
  eexists. split; [reflexivity|].
  destruct (submission_awaits_verification "2024-05-04 08:30:00"
              (Parsed [("S1", [Scenario.txn1_verified])])
              "S1" "Asha" 3500 "Bank Transfer" "TXN2")
    as (_ & _ & Hparsed).
  { by apply (bool_decide_unpack _). }
  destruct Hparsed as (_ & _ & _ & Hcount); [done|].
  split; [reflexivity|]. rewrite Hcount. reflexivity.
Defined.

(** *** Sessions of submissions and admin actions *)

Lemma handle_parent_payment_saved now file sid name amt method tid :
  file ≠ Unparseable → NoDup (file_keys file) →
  ∃ payments',
    (handle_parent_payment true now file sid name amt method tid).2
    = Parsed payments' ∧
    payments' = dict_append sid (new_payment_data sid name amt method tid now)
                  (dict_setdefault_nil sid (file_entries file)) ∧
    NoDup payments'.*1 ∧
    all_payments payments'
    ≡ₚ new_payment_data sid name amt method tid now :: file_payments file.
Proof.
  intros Hfile Hnd.
  exists (dict_append sid (new_payment_data sid name amt method tid now)
            (dict_setdefault_nil sid (file_entries file))).
  split_and!; [by destruct file|done| |].
  - rewrite dict_append_keys.
    by apply (dict_setdefault_nil_spec sid (file_entries file)).
  - destruct (dict_setdefault_nil_spec sid (file_entries file))
      as (Hall & Hin & Hkeys & _).
    rewrite all_payments_dict_append; [|by apply Hkeys|done].
    rewrite Hall. by destruct file.
Qed.

Lemma stats_total file :
  Forall (λ p, known_status (status p)) (file_payments file) →
  (total_pending (get_payment_stats file)
   + total_verified (get_payment_stats file)
   + total_rejected (get_payment_stats file))%nat
  = length (file_payments file).
Proof.
  destruct file as [| |payments]; [done..|]. intros Hknown.
  destruct (stats_counts payments) as (-> & -> & ->).
  by apply filter_lengths_bounded.
Qed.

Lemma run_op_records op file :
  let file' := (run_op op file).2 in
  file_keys file' = file_keys file ∧
  (Forall (λ p, known_status (status p)) (file_payments file) →
   Forall (λ p, known_status (status p)) (file_payments file')) ∧
  length (file_payments file') = length (file_payments file) ∧
  (file = Unparseable ↔ file' = Unparseable).
Proof.
  destruct op as [now user pd|now user pd], file as [| |payments];
    simpl; try done.
  - destruct (verify_payments_records (transaction_id pd) now
                (default "Admin" user) payments) as [Hkeys Hrel].
    unfold file_keys. simpl. split_and!; [done| |by rewrite (Forall2_length _ _ _ Hrel)|done].
    intros Hknown. induction Hrel as [|p p' l l' Hp _ IH]; [done|].
    apply Forall_cons in Hknown as [Hk Hl]. constructor; [|by apply IH].
    destruct Hp as [->| ->]; [done|]. right. by left.
  - destruct (reject_payments_records (transaction_id pd) now
                (default "Admin" user) payments) as [Hkeys Hrel].
    unfold file_keys. simpl. split_and!; [done| |by rewrite (Forall2_length _ _ _ Hrel)|done].
    intros Hknown. induction Hrel as [|p p' l l' Hp _ IH]; [done|].
    apply Forall_cons in Hknown as [Hk Hl]. constructor; [|by apply IH].
    destruct Hp as [->| ->]; [done|]. right. by right.
Qed.

Lemma run_workflow_op_records op file :
  NoDup (file_keys file) →
  Forall (λ p, known_status (status p)) (file_payments file) →
  let file' := (run_workflow_op op file).2 in
  NoDup (file_keys file') ∧
  Forall (λ p, known_status (status p)) (file_payments file') ∧
  length (file_payments file')
  = (length (file_payments file)
     + match file with
       | Unparseable => 0
       | _ => if is_saved_submission op then 1 else 0
       end)%nat ∧
  (file = Unparseable ↔ file' = Unparseable).
Proof.
  intros Hnd Hknown.
  destruct op as [saved now sid name amt method tid|op]; simpl.
  - destruct saved; simpl.
    + destruct file as [| |payments] eqn:Hfile; [|done|].
      all: rewrite <- Hfile in *.
      all: destruct (handle_parent_payment_saved now file sid name amt method tid)
             as (payments' & Hsaved & _ & Hnd' & Hperm);
             [by rewrite Hfile|done|].
      all: unfold handle_parent_payment in Hsaved; simpl in Hsaved.
      all: rewrite Hsaved; unfold file_keys; simpl.
      all: split_and!; [done| | |by rewrite Hfile].
      all: rewrite Hperm; try (constructor; [by left|done]).
      all: simpl; rewrite Hfile; simpl; lia.
    + split_and!; [done|done| |done]. destruct file; lia.
  - destruct (run_op_records op file) as (Hkeys & Hk & Hlen & Hun).
    split_and!; [by rewrite Hkeys|by apply Hk| |done].
    rewrite Hlen. destruct file; lia.
Qed.

(** Through any session of parent submissions and admin actions, from a
    store with unique student keys and workflow statuses only: the keys
    stay unique, every record carries one of the three workflow
    statuses, no record is ever removed and exactly one is added per
    saved submission (none at all while the file does not parse), and
    the three counts of the statistics add up to the number of
    records. *)
Theorem workflow_keeps_records ops file :
  NoDup (file_keys file) →
  Forall (λ p, known_status (status p)) (file_payments file) →
  let file' := run_workflow ops file in
  let stats := get_payment_stats file' in
  NoDup (file_keys file') ∧
  Forall (λ p, known_status (status p)) (file_payments file') ∧
  length (file_payments file')
  = (length (file_payments file)
     + match file with
       | Unparseable => 0
       | _ => saved_submissions ops
       end)%nat ∧
  (total_pending stats + total_verified stats + total_rejected stats)%nat
  = length (file_payments file').
Proof.
  intros Hnd Hknown. cbv zeta.
  assert (Hinv : NoDup (file_keys (run_workflow ops file)) ∧
                 Forall (λ p, known_status (status p))
                   (file_payments (run_workflow ops file)) ∧
                 length (file_payments (run_workflow ops file))
                 = (length (file_payments file)
                    + match file with
                      | Unparseable => 0
                      | _ => saved_submissions ops
                      end)%nat).
  { revert file Hnd Hknown. induction ops as [|op ops IH]; intros file Hnd Hknown.
    { simpl. split_and!; [done|done|]. unfold saved_submissions. simpl.
      destruct file; lia. }
    destruct (run_workflow_op_records op file Hnd Hknown)
      as (Hnd' & Hknown' & Hlen' & Hun).
    destruct (IH _ Hnd' Hknown') as (Hnd'' & Hknown'' & Hlen'').
    unfold run_workflow in *. simpl foldl.
    split_and!; [done|done|]. rewrite Hlen'', Hlen'.
    assert (Hcount : saved_submissions (op :: ops)
                     = ((if is_saved_submission op then 1 else 0)
                        + saved_submissions ops)%nat).
    { unfold saved_submissions. rewrite filter_cons.
      destruct (is_saved_submission op); simpl; by repeat case_decide. }
    rewrite Hcount.
    destruct (run_workflow_op op file).2 as [| |payments'] eqn:Hfile';
      destruct file as [| |payments]; try lia.
    all: try (by pose proof (proj2 Hun eq_refl)).
    all: by pose proof (proj1 Hun eq_refl). }
  destruct Hinv as (Hnd' & Hknown' & Hlen').
  split_and!; [done|done|done|]. by apply stats_total.
Qed.

Lemma workflow_keeps_records_witness :
  let session :=
    [Submit true "2024-05-01 10:00:00" "S1" "Asha" 3000 "Bank Transfer" "TXN1";
     Submit false "2024-05-01 10:05:00" "S1" "Asha" 3000 "Bank Transfer" "TXN1";
     Admin (Verify "2024-05-02 09:00:00" None Scenario.txn1_pending);
     Submit true "2024-05-04 08:30:00" "S1" "Asha" 3500 "Bank Transfer" "TXN2"] in
  length (file_payments (run_workflow session Missing)) = 2%nat ∧
  get_pending_parent_payments (run_workflow session Missing)
  = [Scenario.txn2_pending].
Proof.
  intros session.
  destruct (workflow_keeps_records session Missing) as (_ & _ & Hlen & _).
  - constructor.
  - constructor.
  - split; [exact Hlen|reflexivity].
Defined.

(** *** A submission and its decision *)

Lemma first_match_snoc (f : payment → payment) tid sp x :
  Forall (λ p, transaction_id p ≠ tid) sp → transaction_id x = tid →
  (match list_find (λ payment, transaction_id payment = tid) (sp ++ [x]) with
   | Some (i, _) => alter f i (sp ++ [x])
   | None => sp ++ [x]
   end) = sp ++ [f x].
Proof.
  intros Hno Hx.
  rewrite list_find_app_r by (by apply list_find_None).
  simpl. rewrite decide_True by done. simpl.
  replace (length sp) with (length sp + 0)%nat by lia.
  by rewrite (alter_app_r f sp [x] 0).
Qed.

(** Appending a record to a student's list and then running an inner
    loop [g] that rewrites it to a record [y] no longer awaiting
    verification. *)
Lemma decide_after_append (g : list payment → list payment) tid sid x y payments :
  (∀ sp, Forall (λ p, transaction_id p ≠ tid) sp → g sp = sp) →
  (∀ sp, Forall (λ p, transaction_id p ≠ tid) sp → g (sp ++ [x]) = sp ++ [y]) →
  no_match tid payments →
  status y ≠ "pending_verification" →
  let payments' := (λ entry : string * list payment, (entry.1, g entry.2))
                     <$> dict_append sid x payments in
  filter pending_verification (all_payments payments')
  = filter pending_verification (all_payments payments) ∧
  (sid ∈ payments.*1 → y ∈ all_payments payments').
Proof.
  intros Hsame Hsnoc Hno Hy. cbv zeta. unfold dict_append.
  assert (Hcons : ∀ k sp payments,
             all_payments ((k, sp) :: payments) = sp ++ all_payments payments)
    by done.
  induction Hno as [|[k sp] payments Hsp Hno [IHf IHin]].
  { split; [done|by intros ?%elem_of_nil]. }
  rewrite !fmap_cons. cbn [fst snd].
  simpl in Hsp. destruct (decide (k = sid)) as [->|Hne]; cbn [fst snd];
    rewrite !Hcons.
  - rewrite (Hsnoc sp Hsp), !filter_app, IHf. split.
    + f_equal. rewrite filter_cons, decide_False by done. simpl. by rewrite app_nil_r.
    + intros _. apply elem_of_app. left. apply elem_of_app. right. by left.
  - rewrite (Hsame sp Hsp), !filter_app, IHf. split; [done|].
    intros [?|Hin]%elem_of_cons; [done|]. apply elem_of_app. right. by apply IHin.
Qed.

(** A payment submitted under a transaction id no record carries yet,
    then verified or rejected under that id: the admin action answers
    [True], the decided record is in the store with the admin's stamps,
    and the pending list is the one from before the submission. *)
Theorem decided_submission_leaves_pending_list op now file sid name amt method tid :
  file ≠ Unparseable →
  no_match (Some tid) (file_entries file) →
  op_transaction_id op = Some tid →
  let submitted := (handle_parent_payment true now file sid name amt method tid).2 in
  let decided := run_op op submitted in
  let new := new_payment_data sid name amt method tid now in
  new ∈ get_pending_parent_payments submitted ∧
  decided.1 = true ∧
  get_pending_parent_payments decided.2 = get_pending_parent_payments file ∧
  match op with
  | Verify at_time user _ =>
    mark_verified at_time (default "Admin" user) new ∈ file_payments decided.2
  | Reject at_time user _ =>
    mark_rejected at_time (default "Admin" user) new ∈ file_payments decided.2
  end.
Proof.
  intros Hfile Hno Hop. cbv zeta.
  set (new := new_payment_data sid name amt method tid now).
  set (payments := dict_setdefault_nil sid (file_entries file)).
  assert (Hsubmitted : (handle_parent_payment true now file sid name amt method tid).2
                       = Parsed (dict_append sid new payments)).
  { by destruct file. }
  destruct (dict_setdefault_nil_spec sid (file_entries file))
    as (Hall & Hin & _ & Hno').
  specialize (Hno' _ Hno). fold payments in Hall, Hin, Hno'.
  assert (Hpending : get_pending_parent_payments file
                     = sorted_desc payment_date
                         (filter pending_verification (all_payments payments))).
  { rewrite Hall. by destruct file. }
  rewrite Hsubmitted, Hpending. split.
  { apply elem_of_get_pending. split; [done|]. simpl.
    unfold all_payments, dict_append. clear -Hin.
    induction payments as [|[k sp] payments IH]; [by apply elem_of_nil in Hin|].
    simpl. destruct (decide (k = sid)) as [->|Hne]; simpl.
    - apply elem_of_app. left. apply elem_of_app. right. by left.
    - apply elem_of_cons in Hin as [?|Hin]; [done|].
      apply elem_of_app. right. by apply IH. }
  destruct op as [at_time user pd|at_time user pd]; simpl in Hop; simpl;
    rewrite Hop.
  - destruct (decide_after_append
                (verify_student_payments (Some tid) at_time (default "Admin" user))
                (Some tid) sid new
                (mark_verified at_time (default "Admin" user) new) payments)
      as [Hfilter Hdecided]; try done.
    + intros sp Hsp. by apply first_match_no_match.
    + intros sp Hsp. by apply first_match_snoc.
    + split; [done|]. split; [|by apply Hdecided].
      unfold verify_payments. by rewrite Hfilter.
  - destruct (decide_after_append
                (reject_student_payments (Some tid) at_time (default "Admin" user))
                (Some tid) sid new
                (mark_rejected at_time (default "Admin" user) new) payments)
      as [Hfilter Hdecided]; try done.
    + intros sp Hsp. by apply first_match_no_match.
    + intros sp Hsp. by apply first_match_snoc.
    + split; [done|]. split; [|by apply Hdecided].
      unfold reject_payments. by rewrite Hfilter.
Qed.

Lemma decided_submission_leaves_pending_list_witness :
  let file := Parsed [("S1", [Scenario.txn1_pending])] in
  let submitted :=
    (handle_parent_payment true "2024-05-04 08:30:00" file
       "S1" "Asha" 3500 "Bank Transfer" "TXN2").2 in
  get_pending_parent_payments submitted
  = [Scenario.txn2_pending; Scenario.txn1_pending] ∧
  get_pending_parent_payments
    (run_op (Reject "2024-05-05 09:00:00" (Some "Head")
               Scenario.txn2_pending) submitted).2
  = [Scenario.txn1_pending].
Proof.
  intros file submitted. split; [reflexivity|].
  destruct (decided_submission_leaves_pending_list
              (Reject "2024-05-05 09:00:00" (Some "Head") Scenario.txn2_pending)
              "2024-05-04 08:30:00" file "S1" "Asha" 3500 "Bank Transfer" "TXN2")
    as (_ & _ & Hpending & _).
  - done.
  - by repeat constructor.
  - reflexivity.
  - exact Hpending.
Defined.

End notifications.

(** ** The ledger row of a parent payment *)

Section ledger_rows.
Import Ledger.

Lemma filter_ext_elem {A} (P Q : A → Prop)
    `{∀ x, Decision (P x)} `{∀ x, Decision (Q x)} (l : list A) :
  (∀ x, x ∈ l → P x ↔ Q x) → filter P l = filter Q l.
Proof.
  induction l as [|x l IH]; [done|]. intros Hiff.
  rewrite !filter_cons, IH by (intros y Hy; apply Hiff; by right).
  pose proof (Hiff x ltac:(by left)).
  repeat case_decide; tauto || done.
Qed.

Lemma paid_months_of_rows_app student rows1 rows2 :
  ParentDatabase.paid_months_of_rows student (rows1 ++ rows2)
  = match ParentDatabase.paid_months_of_rows student rows1,
          ParentDatabase.paid_months_of_rows student rows2 with
    | Some paid1, Some paid2 => Some (paid1 ++ paid2)
    | _, _ => None
    end.
Proof.
  induction rows1 as [|row rows1 IH]; simpl.
  { by destruct (ParentDatabase.paid_months_of_rows student rows2). }
  case_decide; [|done]. destruct (Monthly_Fee row) as [fee|]; [|done].
  rewrite IH.
  destruct (ParentDatabase.paid_months_of_rows student rows1),
           (ParentDatabase.paid_months_of_rows student rows2); simpl; try done.
  by destruct (Qpositive fee).
Qed.

Lemma parent_payment_not_a_month :
  ("PARENT_PAYMENT" ∉ ParentDatabase.all_months) ∧
  ("PARENT_PAYMENT" ∉ ParentPortal.all_months).
Proof. split; by apply (bool_decide_unpack _). Qed.

(** The ledger row of a parent-portal payment, wherever it stands in the
    ledger: [get_unpaid_months] answers for every student what it
    answered without the row (it raises exactly when it raised before),
    so the payment settles no calendar month, and the paid list of every
    other student is untouched.  The paid list of the row's student
    gains one entry, labelled PARENT_PAYMENT, when the amount is
    positive, and nothing otherwise. *)
Theorem parent_payment_row_settles_no_month rows1 rows2 sid amt pmethod today student :
  let row := RealPaymentSystem.payment_record sid amt pmethod today in
  let entry := {| ParentDatabase.month := "PARENT_PAYMENT";
                  ParentDatabase.paid_amount := amt;
                  ParentDatabase.date := today;
                  ParentDatabase.method := pmethod |} in
  let before := Some (rows1 ++ rows2) in
  let after := Some (rows1 ++ row :: rows2) in
  ParentDatabase.get_unpaid_months after student
  = ParentDatabase.get_unpaid_months before student ∧
  (student ≠ sid →
   ParentDatabase.get_paid_months after student
   = ParentDatabase.get_paid_months before student) ∧
  (student = sid →
   ∀ paid,
     ParentDatabase.get_paid_months before student = Some paid →
     ∃ paid',
       ParentDatabase.get_paid_months after student = Some paid' ∧
       length paid' = (length paid + if Qpositive amt then 1 else 0)%nat ∧
       ∀ pm, pm ∈ paid' ↔ pm ∈ paid ∨ (Qpositive amt = true ∧ pm = entry)).
Proof.
  cbv zeta.
  set (row := RealPaymentSystem.payment_record sid amt pmethod today).
  set (entry := {| ParentDatabase.month := "PARENT_PAYMENT";
                   ParentDatabase.paid_amount := amt;
                   ParentDatabase.date := today;
                   ParentDatabase.method := pmethod |}).
  set (extra := if decide (sid = student)
                then if Qpositive amt then [entry] else [] else []).
  assert (Hextra : ParentDatabase.paid_months_of_rows student [row] = Some extra).
  { subst extra. simpl. case_decide; [|done]. by destruct (Qpositive amt). }
  assert (Hlabel : ∀ pm, pm ∈ extra → ParentDatabase.month pm = "PARENT_PAYMENT").
  { subst extra. intros pm. case_decide; [|by intros ?%elem_of_nil].
    destruct (Qpositive amt); [|by intros ?%elem_of_nil].
    by intros ->%list_elem_of_singleton. }
  assert (Hpaid : ParentDatabase.paid_months_of_rows student (rows1 ++ row :: rows2)
                  = match ParentDatabase.paid_months_of_rows student rows1,
                          ParentDatabase.paid_months_of_rows student rows2 with
                    | Some paid1, Some paid2 => Some (paid1 ++ extra ++ paid2)
                    | _, _ => None
                    end).
  { change (row :: rows2) with ([row] ++ rows2).
    rewrite !paid_months_of_rows_app, Hextra.
    by destruct (ParentDatabase.paid_months_of_rows student rows1),
                (ParentDatabase.paid_months_of_rows student rows2). }
  split_and!.
  - unfold ParentDatabase.get_unpaid_months, ParentDatabase.get_paid_months.
    rewrite Hpaid, paid_months_of_rows_app.
    destruct (ParentDatabase.paid_months_of_rows student rows1) as [paid1|]; [|done].
    destruct (ParentDatabase.paid_months_of_rows student rows2) as [paid2|]; [|done].
    f_equal. apply filter_ext_elem. intros m Hm.
    rewrite !fmap_app, !elem_of_app.
    assert (m ∉ (ParentDatabase.month <$> extra)); [|tauto].
    intros (pm & -> & Hpm)%list_elem_of_fmap. rewrite (Hlabel pm Hpm) in Hm.
    by apply parent_payment_not_a_month in Hm.
  - intros Hne. unfold ParentDatabase.get_paid_months.
    rewrite Hpaid, paid_months_of_rows_app. subst extra.
    by rewrite decide_False by done.
  - intros Hid paid. unfold ParentDatabase.get_paid_months.
    rewrite Hpaid, paid_months_of_rows_app.
    destruct (ParentDatabase.paid_months_of_rows student rows1) as [paid1|]; [|done].
    destruct (ParentDatabase.paid_months_of_rows student rows2) as [paid2|]; [|done].
    intros [= <-]. eexists. split; [done|]. subst extra.
    rewrite decide_True by done. rewrite !length_app. split.
    + destruct (Qpositive amt); simpl; lia.
    + intros pm. rewrite !elem_of_app.
      destruct (Qpositive amt).
      * rewrite list_elem_of_singleton. intuition.
      * rewrite elem_of_nil. intuition congruence.
Qed.

(** The same row in the data frame of [get_student_fee_details]: the
    details of every student keep their paid and unpaid months, their
    annual and admission flags, their three fees and their total due. *)
Theorem parent_payment_row_in_fee_details df1 df2 sid amt pmethod today
    student_details student_fees default_fees student d :
  let row := RealPaymentSystem.payment_record sid amt pmethod today in
  ParentPortal.get_student_fee_details (df1 ++ df2) student_details student_fees
    default_fees student = Some d →
  ∃ d',
    ParentPortal.get_student_fee_details (df1 ++ row :: df2) student_details
      student_fees default_fees student = Some d' ∧
    ParentPortal.paid_months d' = ParentPortal.paid_months d ∧
    ParentPortal.unpaid_months d' = ParentPortal.unpaid_months d ∧
    ParentPortal.annual_paid d' = ParentPortal.annual_paid d ∧
    ParentPortal.admission_paid d' = ParentPortal.admission_paid d ∧
    ParentPortal.monthly_fee d' = ParentPortal.monthly_fee d ∧
    ParentPortal.annual_fee d' = ParentPortal.annual_fee d ∧
    ParentPortal.admission_fee d' = ParentPortal.admission_fee d ∧
    ParentPortal.total_due d' = ParentPortal.total_due d.
Proof.
  cbv zeta.
  set (row := RealPaymentSystem.payment_record sid amt pmethod today).
  unfold ParentPortal.get_student_fee_details.
  destruct (student_details !! student) as [info|]; [|done].
  intros Hd. apply (inj Some) in Hd. subst d. eexists. split; [reflexivity|].
  cbn [ParentPortal.paid_months ParentPortal.unpaid_months ParentPortal.annual_paid
       ParentPortal.admission_paid ParentPortal.total_due ParentPortal.monthly_fee
       ParentPortal.annual_fee ParentPortal.admission_fee].
  set (records := filter (λ r : fee_row, ID r = student) (df1 ++ df2)).
  set (records' := filter (λ r : fee_row, ID r = student) (df1 ++ row :: df2)).
  assert (Hrecords : ∃ extra,
             records = filter (λ r : fee_row, ID r = student) df1
                       ++ filter (λ r : fee_row, ID r = student) df2 ∧
             records' = filter (λ r : fee_row, ID r = student) df1
                        ++ extra ++ filter (λ r : fee_row, ID r = student) df2 ∧
             extra = if decide (sid = student) then [row] else []).
  { eexists. subst records records'.
    rewrite !filter_app, filter_cons. split; [done|]. split; [|done].
    simpl. by case_decide. }
  destruct Hrecords as (extra & -> & -> & Hextra).
  assert (Hmonths : ∀ m, m ∈ ParentPortal.all_months →
             ParentPortal.month_records
               (filter (λ r : fee_row, ID r = student) df1
                ++ extra ++ filter (λ r : fee_row, ID r = student) df2) m
             = ParentPortal.month_records
                 (filter (λ r : fee_row, ID r = student) df1
                  ++ filter (λ r : fee_row, ID r = student) df2) m).
  { intros m Hm. unfold ParentPortal.month_records. rewrite !filter_app.
    f_equal. rewrite Hextra. case_decide; [|done].
    rewrite filter_cons, decide_False; [done|].
    simpl. intros [<- _]. by apply parent_payment_not_a_month in Hm. }
  assert (Hresolve : ∀ months acc,
             (∀ m, m ∈ months → m ∈ ParentPortal.all_months) →
             foldl (λ acc month,
                      match ParentPortal.month_records
                              (filter (λ r : fee_row, ID r = student) df1
                               ++ extra ++ filter (λ r : fee_row, ID r = student) df2)
                              month with
                      | first :: _ =>
                        (acc.1 ++ [{| ParentPortal.month := month;
                                      ParentPortal.paid_amount :=
                                        default 0%Q (Monthly_Fee first);
                                      ParentPortal.date := Date first |}], acc.2)
                      | [] => (acc.1, acc.2 ++ [month])
                      end) acc months
             = foldl (λ acc month,
                        match ParentPortal.month_records
                                (filter (λ r : fee_row, ID r = student) df1
                                 ++ filter (λ r : fee_row, ID r = student) df2)
                                month with
                        | first :: _ =>
                          (acc.1 ++ [{| ParentPortal.month := month;
                                        ParentPortal.paid_amount :=
                                          default 0%Q (Monthly_Fee first);
                                        ParentPortal.date := Date first |}], acc.2)
                        | [] => (acc.1, acc.2 ++ [month])
                        end) acc months).
  { induction months as [|m months IH]; intros acc Hin; [done|].
    simpl. rewrite Hmonths by (apply Hin; by left).
    apply IH. intros m' Hm'. apply Hin. by right. }
  assert (Hflags : ∀ column : fee_row → option Q,
             column row = Some 0%Q →
             existsb (λ r, ParentPortal.cell_positive (column r))
               (filter (λ r : fee_row, ID r = student) df1
                ++ extra ++ filter (λ r : fee_row, ID r = student) df2)
             = existsb (λ r, ParentPortal.cell_positive (column r))
                 (filter (λ r : fee_row, ID r = student) df1
                  ++ filter (λ r : fee_row, ID r = student) df2)).
  { intros column Hcolumn. rewrite !existsb_app. f_equal.
    rewrite Hextra. case_decide; [|done]. simpl. by rewrite Hcolumn. }
  unfold ParentPortal.resolve_months.
  rewrite Hresolve by done.
  rewrite (Hflags Annual_Charges), (Hflags Admission_Fee) by done.
  by split_and!.
Qed.

Lemma parent_payment_row_in_fee_details_witness :
  ∃ d d',
    ParentPortal.get_student_fee_details Scenario.ledger
      Scenario.student_details (Some Scenario.STUDENT_FEES) None "S1" = Some d ∧
    ParentPortal.get_student_fee_details Scenario.ledger_with_parent_payment
      Scenario.student_details (Some Scenario.STUDENT_FEES) None "S1" = Some d' ∧
    ParentPortal.unpaid_months d' = ParentPortal.unpaid_months d ∧
    length (ParentPortal.unpaid_months d') = 10%nat ∧
    ParentPortal.total_due d' = 49500%Q.
Proof.
  destruct (ParentPortal.get_student_fee_details Scenario.ledger
              Scenario.student_details (Some Scenario.STUDENT_FEES) None "S1")
    as [d|] eqn:Hd; [|by vm_compute in Hd].
  destruct (parent_payment_row_in_fee_details Scenario.ledger [] "S1" 3000 "JazzCash"
              "2024-06-02" Scenario.student_details (Some Scenario.STUDENT_FEES)
              None "S1" d)
    as (d' & Hd' & _ & Hunpaid & _ & _ & _ & _ & _ & Hdue).
  { rewrite app_nil_r. exact Hd. }
  exists d, d'. split; [reflexivity|]. split; [exact Hd'|].
  split; [exact Hunpaid|].
  pose proof Hd as Ed. vm_compute in Ed. injection Ed as Ed.
  rewrite Hunpaid, Hdue, <- Ed. split; reflexivity.
Defined.

End ledger_rows.

(** ** The payment history *)

Section payment_history.

Local Abbreviation receipt student :=
  (λ row : ParentDatabase.history_row,
     if decide (ParentDatabase.history_ID row = Some student) then
       match ParentDatabase.Received_Amount_float row with
       | Some amount =>
         if (0 <? amount)%float then Some (ParentDatabase.history_entry_of row amount)
         else None
       | None => None
       end
     else None) (only parsing).

Lemma history_of_rows_omap student rows :
  ParentDatabase.history_of_rows student rows = omap (receipt student) rows.
Proof.
  unfold ParentDatabase.history_of_rows.
  set (f := λ (history : list ParentDatabase.history_entry)
              (row : ParentDatabase.history_row), _).
  assert (Hfrom : ∀ history, foldl f history rows
                             = history ++ omap (receipt student) rows);
    [|by rewrite Hfrom].
  induction rows as [|row rows IH]; intros history; simpl.
  { by rewrite app_nil_r. }
  rewrite IH. unfold f. case_decide; [|done].
  destruct (ParentDatabase.Received_Amount_float row) as [amount|]; [|done].
  destruct (0 <? amount)%float; [|done]. by rewrite <- app_assoc.
Qed.

Lemma elem_of_history student rows entry :
  entry ∈ ParentDatabase.history_of_rows student rows ↔
  ∃ row amount,
    row ∈ rows ∧ ParentDatabase.history_ID row = Some student ∧
    ParentDatabase.Received_Amount_float row = Some amount ∧
    (0 <? amount)%float = true ∧
    entry = ParentDatabase.history_entry_of row amount.
Proof.
  rewrite history_of_rows_omap, list_elem_of_omap. split.
  - intros (row & Hrow & Hentry). case_decide as Hid; [|done].
    destruct (ParentDatabase.Received_Amount_float row) as [amount|] eqn:Hcell;
      [|done].
    destruct (0 <? amount)%float eqn:Hpos; [|done].
    injection Hentry as <-. by exists row, amount.
  - intros (row & amount & Hrow & Hid & Hcell & Hpos & ->). exists row.
    split; [done|]. by rewrite decide_True, Hcell, Hpos by done.
Qed.

(** The payment history of a student.  The call raises exactly when the
    student has two or more ledger rows with a received amount above
    zero and one of them has no date cell.  When it returns, the
    history holds one entry for each such row, and no other, with the
    newest date first; a row whose amount is no number, or not above
    zero, is left out.  Without a ledger file the history is empty.  A
    missing request file is created empty; any other is left as it
    is. *)
Theorem payment_history_lists_receipts rows file student :
  let result := (ParentDatabase.get_payment_history (Some rows) file student).1 in
  let receipts := ParentDatabase.history_of_rows student rows in
  (result = None ↔
   (2 ≤ length receipts)%nat ∧
   ∃ entry, entry ∈ receipts ∧ ParentDatabase.history_date entry = None) ∧
  (∀ history,
     result = Some history →
     history ≡ₚ receipts ∧
     (∀ entry, entry ∈ history ↔
               ∃ row amount,
                 row ∈ rows ∧ ParentDatabase.history_ID row = Some student ∧
                 ParentDatabase.Received_Amount_float row = Some amount ∧
                 (0 <? amount)%float = true ∧
                 entry = ParentDatabase.history_entry_of row amount) ∧
     Sorted (descending (λ entry, default "" (ParentDatabase.history_date entry)))
       history) ∧
  (ParentDatabase.get_payment_history None file student).1 = Some [] ∧
  (ParentDatabase.get_payment_history (Some rows) file student).2
  = match file with Missing => Parsed ∅ | _ => file end.
Proof.
  cbv zeta. unfold ParentDatabase.get_payment_history. cbn [fst snd].
  unfold ParentDatabase.sorted_by_date.
  set (receipts := ParentDatabase.history_of_rows student rows).
  split_and!; [| |done|done].
  - destruct (decide (length receipts < 2)%nat) as [Hshort|Hlong].
    { split; [done|]. intros [? _]. lia. }
    destruct (decide (Forall (λ entry, is_Some (ParentDatabase.history_date entry))
                        receipts)) as [Hdates|Hnone].
    + split; [done|]. intros (_ & entry & Hentry & Hdate).
      rewrite Forall_forall in Hdates. destruct (Hdates entry Hentry) as [? ?].
      congruence.
    + split; [|done]. intros _. split; [lia|].
      apply not_Forall_Exists in Hnone; [|apply _].
      apply Exists_exists in Hnone as (entry & Hentry & Hdate).
      exists entry. split; [done|]. by apply eq_None_not_Some.
  - intros history Hresult.
    assert (Hperm : history ≡ₚ receipts ∧
                    Sorted (descending
                              (λ entry, default "" (ParentDatabase.history_date entry)))
                      history).
    { destruct (decide (length receipts < 2)%nat) as [Hshort|Hlong].
      - injection Hresult as <-. split; [done|].
        destruct receipts as [|entry [|? ?]]; [constructor| |simpl in Hshort; lia].
        by repeat constructor.
      - destruct (decide (Forall _ receipts)); [|done].
        injection Hresult as <-.
        split; [apply sorted_desc_perm|apply sorted_desc_sorted]. }
    destruct Hperm as [Hperm Hsorted]. split_and!; [done| |done].
    intros entry. rewrite Hperm. apply elem_of_history.
Qed.

Lemma payment_history_lists_receipts_witness :
  let row date amount :=
    {| ParentDatabase.history_ID := Some "S1";
       ParentDatabase.Received_Amount_float := amount;
       ParentDatabase.history_Date := date;
       ParentDatabase.history_Payment_Method := Some "Cash";
       ParentDatabase.Reference_No := Some "N/A";
       ParentDatabase.Remarks := Some "" |} in
  let rows := [row (Some "2024-04-05") (Some 3000%float);
               row (Some "2024-06-01") None;
               row (Some "2024-05-06") (Some 3500%float);
               row (Some "2024-07-01") (Some 0%float)] in
  (λ history : list ParentDatabase.history_entry,
     ParentDatabase.history_date <$> history)
    <$> (ParentDatabase.get_payment_history (Some rows) Missing "S1").1
  = Some [Some "2024-05-06"; Some "2024-04-05"] ∧
  (ParentDatabase.get_payment_history
     (Some (rows ++ [row None (Some 100%float)])) Missing "S1").1 = None.
Proof.
  intros row rows.
  destruct (payment_history_lists_receipts (rows ++ [row None (Some 100%float)])
              Missing "S1") as ([_ Hraise] & _).
  split; [reflexivity|]. apply Hraise. split.
  - vm_compute. lia.
  - exists (ParentDatabase.history_entry_of (row None (Some 100%float)) 100%float).
    split; [|reflexivity]. apply elem_of_history.
    exists (row None (Some 100%float)), 100%float.
    split_and!; try reflexivity. apply elem_of_app. right. by left.
Defined.

End payment_history.

(** ** Records out of the admin's reach *)

Section shadowed.
Import PaymentNotifications.

Implicit Types (p a b : payment) (sp : list payment) (payments : store).

Lemma dict_setdefault_nil_lookup (student_id : string) payments k (entry : string * list payment) :
  payments !! k = Some entry →
  dict_setdefault_nil student_id payments !! k = Some entry.
Proof.
  intros Hk. unfold dict_setdefault_nil. case_decide; [done|].
  by apply lookup_app_l_Some.
Qed.

Lemma dict_append_lookup (student_id : string) (x : payment) payments k sid sp :
  payments !! k = Some (sid, sp) →
  ∃ sp', dict_append student_id x payments !! k = Some (sid, sp') ∧
         ∀ i p, sp !! i = Some p → sp' !! i = Some p.
Proof.
  intros Hk. unfold dict_append. rewrite list_lookup_fmap, Hk. simpl.
  case_decide.
  - exists (sp ++ [x]). split; [done|]. intros i p Hi. by apply lookup_app_l_Some.
  - by exists sp.
Qed.

(** One step of a session, seen from two records [a] and [b] of one
    student that share a transaction id, [a] standing before [b]. *)
Lemma shadowed_step (op : workflow_op) payments k sid sp i j a b :
  payments !! k = Some (sid, sp) →
  sp !! i = Some a → sp !! j = Some b → (i < j)%nat →
  transaction_id a = transaction_id b →
  ∃ payments' sp' a',
    (run_workflow_op op (Parsed payments)).2 = Parsed payments' ∧
    payments' !! k = Some (sid, sp') ∧
    sp' !! i = Some a' ∧ sp' !! j = Some b ∧
    transaction_id a' = transaction_id b.
Proof.
  intros Hk Hi Hj Hlt Htid.
  destruct op as [saved now sid' name amt method tid|[at_time user pd|at_time user pd]].
  - destruct saved; simpl; [|by exists payments, sp, a].
    destruct (dict_append_lookup sid'
                (new_payment_data sid' name amt method tid now)
                (dict_setdefault_nil sid' payments) k sid sp)
      as (sp' & Hk' & Hkeep); [by apply dict_setdefault_nil_lookup|].
    exists (dict_append sid' (new_payment_data sid' name amt method tid now)
              (dict_setdefault_nil sid' payments)), sp', a.
    split_and!; auto.
  - simpl.
    exists (verify_payments (transaction_id pd) at_time (default "Admin" user) payments),
      (verify_student_payments (transaction_id pd) at_time (default "Admin" user) sp).
    assert (Hb : verify_student_payments (transaction_id pd) at_time
                   (default "Admin" user) sp !! j = Some b).
    { destruct (verify_student_payments_lookup (transaction_id pd) at_time
                  (default "Admin" user) sp j b Hj) as [Hsame|[_ Hfind]]; [done|].
      apply list_find_Some in Hfind as (_ & Hb & Hfirst).
      destruct (Hfirst i a Hi Hlt). congruence. }
    destruct (verify_student_payments_lookup (transaction_id pd) at_time
                (default "Admin" user) sp i a Hi) as [Hsame|[Hnew _]].
    + exists a. split_and!; auto using verify_payments_lookup.
    + exists (mark_verified at_time (default "Admin" user) a).
      split_and!; auto using verify_payments_lookup.
  - simpl.
    exists (reject_payments (transaction_id pd) at_time (default "Admin" user) payments),
      (reject_student_payments (transaction_id pd) at_time (default "Admin" user) sp).
    assert (Hb : reject_student_payments (transaction_id pd) at_time
                   (default "Admin" user) sp !! j = Some b).
    { destruct (reject_student_payments_lookup (transaction_id pd) at_time
                  (default "Admin" user) sp j b Hj) as [Hsame|[_ Hfind]]; [done|].
      apply list_find_Some in Hfind as (_ & Hb & Hfirst).
      destruct (Hfirst i a Hi Hlt). congruence. }
    destruct (reject_student_payments_lookup (transaction_id pd) at_time
                (default "Admin" user) sp i a Hi) as [Hsame|[Hnew _]].
    + exists a. split_and!; auto using reject_payments_lookup.
    + exists (mark_rejected at_time (default "Admin" user) a).
      split_and!; auto using reject_payments_lookup.
Qed.

(** A record that stands, in its student's list, after another record
    with the same transaction id is out of the admin's reach: through
    any session of submissions, verify and reject calls it keeps its
    place and every field, because each call rewrites the first match
    only.  If it awaits verification it stays in the pending list for
    ever. *)
Theorem shadowed_payment_never_decided ops payments k sid sp i j a b :
  payments !! k = Some (sid, sp) →
  sp !! i = Some a → sp !! j = Some b → (i < j)%nat →
  transaction_id a = transaction_id b →
  ∃ payments' sp',
    run_workflow ops (Parsed payments) = Parsed payments' ∧
    payments' !! k = Some (sid, sp') ∧
    sp' !! j = Some b ∧
    (status b = "pending_verification" →
     b ∈ get_pending_parent_payments (Parsed payments')).
Proof.
  intros Hk Hi Hj Hlt Htid.
  assert (Hkeeps : ∃ payments' sp',
             run_workflow ops (Parsed payments) = Parsed payments' ∧
             payments' !! k = Some (sid, sp') ∧ sp' !! j = Some b).
  { revert payments sp a Hk Hi Hj Htid.
    induction ops as [|op ops IH]; intros payments sp a Hk Hi Hj Htid.
    { by exists payments, sp. }
    destruct (shadowed_step op payments k sid sp i j a b)
      as (payments' & sp' & a' & Hstep & Hk' & Hi' & Hj' & Htid'); try done.
    unfold run_workflow. simpl foldl. rewrite Hstep.
    by apply (IH payments' sp' a'). }
  destruct Hkeeps as (payments' & sp' & Hrun & Hk' & Hj').
  exists payments', sp'. split_and!; try done.
  intros Hpending. apply elem_of_get_pending. split; [done|]. simpl.
  apply elem_of_all_payments. exists (sid, sp'). split.
  - by eapply list_elem_of_lookup_2.
  - by eapply list_elem_of_lookup_2.
Qed.

Lemma shadowed_payment_never_decided_witness :
  let resubmitted :=
    new_payment_data "S1" "Asha" 3000 "JazzCash" "TXN1" "2024-05-03 12:00:00" in
  let session :=
    [Admin (Verify "2024-05-04 09:00:00" None resubmitted);
     Admin (Reject "2024-05-04 09:05:00" None resubmitted);
     Admin (Verify "2024-05-04 09:10:00" (Some "Head") resubmitted)] in
  get_pending_parent_payments
    (run_workflow session (Parsed [("S1", [Scenario.txn1_verified; resubmitted])]))
  = [resubmitted].
Proof.
  intros resubmitted session.
  destruct (shadowed_payment_never_decided session
              [("S1", [Scenario.txn1_verified; resubmitted])] 0 "S1"
              [Scenario.txn1_verified; resubmitted] 0 1
              Scenario.txn1_verified resubmitted)
    as (payments' & sp' & Hrun & _ & _ & Hpending);
    [reflexivity|reflexivity|reflexivity|lia|reflexivity|].
  specialize (Hpending eq_refl). rewrite <- Hrun in Hpending.
  reflexivity.
Defined.

End shadowed.
